(** * SSEBop ETf model (openet/ssebop/model.py): a shallow embedding

    The Python module builds Earth Engine computations for one Landsat
    scene: it resolves the ancillary parameters dT, elevation, Tmax and
    Tcorr from configured sources, applies the ETf formula with its masks
    and clamp, and maps that pipeline over image collections.

    Two layers are kept apart, as in the program.  What the Python code
    itself does when a method is called (raise, [sys.exit()], return) is
    a value of the error monad [Py.res].  What it returns is an Earth
    Engine object, a description that is evaluated later: such an object
    is modelled by the value its evaluation gives, [None] when the
    evaluation fails (a null element, a missing band or property).

    Numbers are exact rationals ([Q]); a pixel is [option Q] with [None]
    for a masked pixel.  The catalogue of assets is a record handed to
    every function that reads it. *)

From Stdlib Require Import ZArith QArith Qround String Ascii List Lia Lqa Bool.
From stdpp Require Import base option strings gmap list.

Open Scope Q_scope.
Open Scope string_scope.

(** ** Python: values, exceptions, strings *)

Module Py.

(** A source selector is a number or a string (a keyword, an asset id,
    or a number written as text). *)
Inductive value :=
| Num (q : Q)
| Str (s : string).

(** What [logging.error(...)] received before [sys.exit()]. *)
Inductive logged :=
| InvalidDt (dt_source : value)
| UnsupportedElevSource (elev_source : value)
| InvalidTmaxSource (tcorr_source tmax_source : value)
| InvalidTcorrSource (tcorr_source tmax_source : value)
| UnsupportedTmaxSource (tmax_source : value).

Inductive exn :=
| SystemExit (msg : logged)
| ValueError (msg : string)
| KeyError (key : string)
| AttributeError (obj : value) (attr : string).

Inductive res (A : Type) :=
| Ok (a : A)
| Raise (e : exn).
Arguments Ok {A} a.
Arguments Raise {A} e.

(** Sequencing of Python statements: an exception ends the call. *)
Definition bind {A B} (m : res A) (f : A -> res B) : res B :=
  match m with
  | Ok a => f a
  | Raise e => Raise e
  end.

Definition is_ok {A} (r : res A) : bool :=
  match r with Ok _ => true | Raise _ => false end.

(** [str.upper()] and [str.lower()], on the ASCII letters. *)
Definition upper_ascii (c : ascii) : ascii :=
  let n := nat_of_ascii c in
  if (97 <=? n)%nat && (n <=? 122)%nat then ascii_of_nat (n - 32) else c.

Definition lower_ascii (c : ascii) : ascii :=
  let n := nat_of_ascii c in
  if (65 <=? n)%nat && (n <=? 90)%nat then ascii_of_nat (n + 32) else c.

Fixpoint map_string (f : ascii -> ascii) (s : string) : string :=
  match s with
  | EmptyString => EmptyString
  | String c r => String (f c) (map_string f r)
  end.

Definition upper : string -> string := map_string upper_ascii.
Definition lower : string -> string := map_string lower_ascii.

(** [s.startswith(p)] *)
Definition startswith (s p : string) : bool := String.prefix p s.

(** [x in xs] for a list of strings. *)
Definition str_in (x : string) (xs : list string) : bool :=
  bool_decide (x ∈ xs).

(** *** [float(x)] succeeds

    Only the success of [float(x)] matters to the module.  For a string
    the accepted language is the one of the language reference, on
    ASCII: surrounding whitespace is dropped, then
    [[sign] (floatnumber | "inf" | "infinity" | "nan")] with
    [digitpart ::= digit (["_"] digit)*],
    [number ::= [digitpart] "." digitpart | digitpart ["."]],
    [floatnumber ::= number [("e"|"E") [sign] digitpart]]. *)

Definition is_space (c : ascii) : bool :=
  let n := nat_of_ascii c in
  ((9 <=? n)%nat && (n <=? 13)%nat) || ((28 <=? n)%nat && (n <=? 32)%nat).

Definition is_digit (c : ascii) : bool :=
  let n := nat_of_ascii c in (48 <=? n)%nat && (n <=? 57)%nat.

Definition is_sign (c : ascii) : bool :=
  bool_decide (c = "+"%char) || bool_decide (c = "-"%char).

Definition is_e (c : ascii) : bool :=
  bool_decide (c = "e"%char) || bool_decide (c = "E"%char).

Definition is_dot (c : ascii) : bool := bool_decide (c = "."%char).

Fixpoint lstrip (l : list ascii) : list ascii :=
  match l with
  | c :: r => if is_space c then lstrip r else l
  | [] => []
  end.

Definition strip (l : list ascii) : list ascii :=
  rev (lstrip (rev (lstrip l))).

Definition drop_sign (l : list ascii) : list ascii :=
  match l with
  | c :: r => if is_sign c then r else l
  | [] => []
  end.

(** [digits_tail] reads the rest of a digitpart after a digit. *)
Fixpoint digits_tail (l : list ascii) : bool :=
  match l with
  | [] => true
  | c :: r =>
      if is_digit c then digits_tail r
      else if bool_decide (c = "_"%char) then
        match r with
        | d :: _ => is_digit d && digits_tail r
        | [] => false
        end
      else false
  end.

Definition digitpart (l : list ascii) : bool :=
  match l with
  | c :: r => is_digit c && digits_tail r
  | [] => false
  end.

(** Cut a list at the first character that satisfies [p]. *)
Fixpoint break (p : ascii -> bool) (l : list ascii)
  : list ascii * option (list ascii) :=
  match l with
  | [] => ([], None)
  | c :: r =>
      if p c then ([], Some r)
      else let '(a, b) := break p r in (c :: a, b)
  end.

Definition number (l : list ascii) : bool :=
  match break is_dot l with
  | (a, None) => digitpart a
  | (a, Some b) =>
      (match a with [] => true | _ => digitpart a end && digitpart b)
      || (digitpart a && match b with [] => true | _ => false end)
  end.

Definition floatnumber (l : list ascii) : bool :=
  match break is_e l with
  | (m, None) => number m
  | (m, Some x) => number m && digitpart (drop_sign x)
  end.

Definition inf_or_nan (l : list ascii) : bool :=
  str_in (lower (string_of_list_ascii l)) ["inf"; "infinity"; "nan"].

Definition float_ok (s : string) : bool :=
  let body := drop_sign (strip (list_ascii_of_string s)) in
  inf_or_nan body || floatnumber body.

Definition float_succeeds (x : value) : bool :=
  match x with
  | Num _ => true
  | Str s => float_ok s
  end.

End Py.

Import Py.

Notation "'let!' x ':=' m 'in' k" := (Py.bind m (fun x => k))
  (at level 10, x name, m at level 100, k at level 200).

(** [_is_number(x)]: [float(x)] is tried and any exception means no. *)
Definition _is_number (x : Py.value) : bool := Py.float_succeeds x.


(** ** Earth Engine: the operations the module calls *)

Module EE.

Definition Qltb (x y : Q) : bool := negb (Qle_bool y x).

Definition of_bool (b : bool) : Q := if b then 1 else 0.

Definition nonzero (q : Q) : bool := negb (Qeq_bool q 0).

(** *** Pixels: a value, or masked *)

Definition Pixel : Type := option Q.

Definition lift2 (f : Q -> Q -> Q) (a b : Pixel) : Pixel :=
  x ← a; y ← b; Some (f x y).

(** [a.lt(c)], [a.lte(c)], [a.gt(c)], [a.gte(c)] against a number. *)
Definition lt (c : Q) (a : Pixel) : Pixel :=
  (fun x => of_bool (Qltb x c)) <$> a.
Definition lte (c : Q) (a : Pixel) : Pixel :=
  (fun x => of_bool (Qle_bool x c)) <$> a.
Definition gt (c : Q) (a : Pixel) : Pixel :=
  (fun x => of_bool (Qltb c x)) <$> a.
Definition gte (c : Q) (a : Pixel) : Pixel :=
  (fun x => of_bool (Qle_bool c x)) <$> a.

Definition And (a b : Pixel) : Pixel :=
  lift2 (fun x y => of_bool (nonzero x && nonzero y)) a b.

Definition subtract (a b : Pixel) : Pixel := lift2 Qminus a b.

Definition add_const (c : Q) (a : Pixel) : Pixel := (fun x => x + c) <$> a.

(** [a.updateMask(m)]: the pixel stays where the mask is valid and not 0. *)
Definition updateMask (m a : Pixel) : Pixel :=
  x ← a; v ← m; if nonzero v then Some x else None.

Definition clampQ (lo hi x : Q) : Q :=
  if Qltb x lo then lo else if Qltb hi x then hi else x.

(** [a.clamp(lo, hi)] *)
Definition clamp (lo hi : Q) (a : Pixel) : Pixel := clampQ lo hi <$> a.

(** [a.where(test, value)]: [value] where [test] is not 0, else [a]. *)
Definition where_ (test value a : Pixel) : Pixel :=
  x ← a; t ← test; v ← value; Some (if nonzero t then v else x).

(** [a.normalizedDifference(b)]: masked for a negative input and where
    the sum is 0. *)
Definition normalizedDifference (a b : Pixel) : Pixel :=
  x ← a; y ← b;
  if Qltb x 0 || Qltb y 0 || Qeq_bool (x + y) 0 then None
  else Some ((x - y) / (x + y)).

(** *** Images: one band over a grid, with properties *)

Definition Coord : Type := (Z * Z)%type.
Definition Raster : Type := Coord -> Pixel.

Inductive prop :=
| PNum (q : Q)
| PStr (s : string)
| PFormat (prefix : string) (q : Q).   (* 'prefix{}'.format(q) *)

Definition prop_of_value (v : Py.value) : prop :=
  match v with Num q => PNum q | Str s => PStr s end.

(** ['CUSTOM_{}'.format(v)] *)
Definition format_custom (v : Py.value) : prop :=
  match v with
  | Num q => PFormat "CUSTOM_" q
  | Str s => PStr ("CUSTOM_" +:+ s)
  end.

Definition prop_eqb (a b : prop) : bool :=
  match a, b with
  | PNum x, PNum y => Qeq_bool x y
  | PStr s, PStr t => bool_decide (s = t)
  | _, _ => false
  end.

Record Image := mkImage {
  band : string;
  pix : Raster;
  props : gmap string prop
}.

Definition map_pix (f : Pixel -> Pixel) (i : Image) : Image :=
  mkImage (band i) (fun c => f (pix i c)) (props i).

Definition constant (q : Q) : Image := mkImage "constant" (fun _ => Some q) ∅.

Definition set (k : string) (v : prop) (i : Image) : Image :=
  mkImage (band i) (pix i) (<[k := v]> (props i)).

Definition rename (b : string) (i : Image) : Image :=
  mkImage b (pix i) (props i).

Definition get (k : string) (i : Image) : option prop := props i !! k.

(** [dst.copyProperties(src, keys)] *)
Definition copyProperties (src : Image) (keys : list string) (dst : Image)
  : Image :=
  fold_left
    (fun d k => match get k src with Some v => set k v d | None => d end)
    keys dst.

(** Arithmetic makes a new image: the properties do not follow. *)
Definition add (c : Q) (i : Image) : Image :=
  mkImage (band i) (fun x => add_const c (pix i x)) ∅.

(** *** Dates: milliseconds since the epoch, UTC *)

Definition ms_per_day : Z := 86400000.

Definition days_from_civil (y m d : Z) : Z :=
  let y' := if (m <=? 2)%Z then (y - 1)%Z else y in
  let era := (y' / 400)%Z in
  let yoe := (y' - era * 400)%Z in
  let mp := if (2 <? m)%Z then (m - 3)%Z else (m + 9)%Z in
  let doy := ((153 * mp + 2) / 5 + d - 1)%Z in
  let doe := (yoe * 365 + yoe / 4 - yoe / 100 + doy)%Z in
  (era * 146097 + doe - 719468)%Z.

(** Year and month of a day count. *)
Definition civil_from_days (z0 : Z) : Z * Z :=
  let z := (z0 + 719468)%Z in
  let era := (z / 146097)%Z in
  let doe := (z - era * 146097)%Z in
  let yoe := ((doe - doe / 1460 + doe / 36524 - doe / 146096) / 365)%Z in
  let doy := (doe - (365 * yoe + yoe / 4 - yoe / 100))%Z in
  let mp := ((5 * doy + 2) / 153)%Z in
  let m := if (mp <? 10)%Z then (mp + 3)%Z else (mp - 9)%Z in
  let y := (yoe + era * 400)%Z in
  (if (m <=? 2)%Z then (y + 1)%Z else y, m).

Definition get_year (t : Z) : Z := fst (civil_from_days (t / ms_per_day)).
Definition get_month (t : Z) : Z := snd (civil_from_days (t / ms_per_day)).

(** [date.getRelative('day', 'year')]: days since 1 January, from 0. *)
Definition getRelative_day_year (t : Z) : Z :=
  (t / ms_per_day - days_from_civil (get_year t) 1 1)%Z.

(** [date.update(hour=0, minute=0, second=0).millis()]: the
    milliseconds within the second stay. *)
Definition update_hms0 (t : Z) : Z :=
  (t / ms_per_day * ms_per_day + t mod 1000)%Z.

Definition advance_day (n t : Z) : Z := (t + n * ms_per_day)%Z.

(** *** Collections *)

Definition time_start (i : Image) : option Z :=
  match get "system:time_start" i with
  | Some (PNum q) => Some (Qfloor q)
  | _ => None
  end.

(** [coll.filterDate(start, end)]: start inclusive, end exclusive. *)
Definition filterDate (start stop : Z) (coll : list Image) : list Image :=
  List.filter
    (fun i => match time_start i with
              | Some t => (start <=? t)%Z && (t <? stop)%Z
              | None => false
              end) coll.

(** [coll.filter(ee.Filter.calendarRange(a, b, 'day_of_year'))]; the
    day of the year counts from 1 there. *)
Definition filter_day_of_year (a b : Z) (coll : list Image) : list Image :=
  List.filter
    (fun i => match time_start i with
              | Some t => let d := (getRelative_day_year t + 1)%Z in
                          (a <=? d)%Z && (d <=? b)%Z
              | None => false
              end) coll.

(** [coll.first()]: the first element, or null. *)
Definition first {A} (coll : list A) : option A := head coll.

Definition merge {A} (a b : list A) : list A := a ++ b.

(** *** Features: property dictionaries *)

Definition Feature : Type := gmap string prop.

(** [coll.filterMetadata(name, 'equals', v)] *)
Definition filterMetadata_equals (name : string) (v : prop)
    (coll : list Feature) : list Feature :=
  List.filter
    (fun f => match f !! name with
              | Some w => prop_eqb w v
              | None => false
              end) coll.

(** [coll.sort(name)]: ascending and stable; a feature without a
    numeric value under [name] goes last. *)
Definition sort_key (name : string) (f : Feature) : option Q :=
  match f !! name with Some (PNum q) => Some q | _ => None end.

Definition key_le (a b : option Q) : bool :=
  match a, b with
  | Some x, Some y => Qle_bool x y
  | _, None => true
  | None, Some _ => false
  end.

Fixpoint insert_sorted (name : string) (f : Feature) (l : list Feature)
  : list Feature :=
  match l with
  | [] => [f]
  | g :: r =>
      if key_le (sort_key name f) (sort_key name g) then f :: l
      else g :: insert_sorted name f r
  end.

Definition sort (name : string) (coll : list Feature) : list Feature :=
  foldr (insert_sorted name) [] coll.

(** *** Strings and lists on the server *)

(** [s.split('_')] *)
Fixpoint split_on (sep : ascii) (s : string) : list string :=
  match s with
  | EmptyString => [EmptyString]
  | String c r =>
      if bool_decide (c = sep) then EmptyString :: split_on sep r
      else match split_on sep r with
           | t :: ts => String c t :: ts
           | [] => [String c EmptyString]
           end
  end.

(** [l.slice(-n)]: the last [n] elements, all of them when fewer. *)
Definition slice_last {A} (n : nat) (l : list A) : list A :=
  drop (length l - n) l.

(** [s.slice(a, b)]: the characters from [a] up to [b], fewer where
    the string ends before. *)
Definition str_slice (a b : nat) (s : string) : string :=
  String.substring a (b - a) s.

(** [i.select([from], [to])]: the band must be there. *)
Definition select (from to : string) (i : Image) : option Image :=
  if bool_decide (band i = from) then Some (rename to i) else None.

(** [i.setMulti(d)] for a list of pairs. *)
Definition setMulti (d : list (string * prop)) (i : Image) : Image :=
  fold_left (fun j kv => set kv.1 kv.2 j) d i.

(** *** Scenes: several named bands *)

Record Scene := mkScene {
  bands : gmap string Raster;
  scene_props : gmap string prop;
  footprint : list Coord
}.

(** [coll.filterBounds(geometry)], a geometry being a list of cells. *)
Definition filterBounds (geometry : list Coord) (coll : list Scene)
  : list Scene :=
  List.filter
    (fun s => bool_decide (Exists (fun c => c ∈ geometry) (footprint s)))
    coll.

Definition scene_time_start (s : Scene) : option Z :=
  match scene_props s !! "system:time_start" with
  | Some (PNum q) => Some (Qfloor q)
  | _ => None
  end.

Definition scene_filterDate (start stop : Z) (coll : list Scene)
  : list Scene :=
  List.filter
    (fun s => match scene_time_start s with
              | Some t => (start <=? t)%Z && (t <? stop)%Z
              | None => false
              end) coll.

(** *** The catalogue

    The contents of the assets, what Earth Engine makes of a Python
    string handed over where it expects a number, and its [exp] and
    [log] are not decided by the module. *)
Record Catalog := mkCatalog {
  FeatureCollection : string -> list Feature;
  ImageCollection : string -> list Image;
  SceneCollection : string -> list Scene;
  ImageAsset : string -> option Image;
  number_of_str : string -> option Q;
  exp : Q -> Q;
  log : Q -> Q
}.

(** [ee.Number(x)] for a Python value [x]. *)
Definition Number (ee : Catalog) (x : Py.value) : option Q :=
  match x with
  | Num q => Some q
  | Str s => number_of_str ee s
  end.

End EE.

(** ** Python objects and [lazy_property] *)

(** An instance: the fields [__init__] assigns, the attributes added
    later by [setattr], and (ghost) a record of every call of a wrapped
    method body with whether it returned. *)
Record Object (F V : Type) := mkObject {
  fields : F;
  dict : gmap string V;
  calls : list (string * bool)
}.
Arguments mkObject {F V}.
Arguments fields {F V}.
Arguments dict {F V}.
Arguments calls {F V}.

Definition hasattr {F V} (self : Object F V) (name : string) : bool :=
  bool_decide (is_Some (dict self !! name)).

Definition setattr {F V} (self : Object F V) (name : string) (v : V)
  : Object F V :=
  mkObject (fields self) (<[name := v]> (dict self)) (calls self).

Definition getattr {F V} (self : Object F V) (name : string) : Py.res V :=
  match dict self !! name with
  | Some v => Ok v
  | None => Raise (AttributeError (Str "self") name)
  end.

Definition called {F V} (name : string) (returned : bool)
    (self : Object F V) : Object F V :=
  mkObject (fields self) (dict self) ((name, returned) :: calls self).

(** [lazy_property(fn)]: the property reads [self._lazy_<name>] and
    calls [fn(self)] only when the attribute is not there yet. *)
Definition lazy_property {F V} (fn_name : string)
    (fn : Object F V -> Py.res V) (self : Object F V)
  : Py.res V * Object F V :=
  let attr_name := "_lazy_" +:+ fn_name in
  if hasattr self attr_name then (getattr self attr_name, self)
  else
    match fn self with
    | Ok v =>
        let self' := setattr (called fn_name true self) attr_name v in
        (getattr self' attr_name, self')
    | Raise e => (Raise e, called fn_name false self)
    end.

(** ** Module-level helpers *)

(** [_c_to_k(image)] *)
Definition _c_to_k (image : EE.Image) : EE.Image :=
  EE.copyProperties image ["system:index"; "system:time_start"]
    (EE.add 273.15 image).

(** [_date_to_time_0utc(date)] *)
Definition _date_to_time_0utc (date : Z) : Z :=
  (EE.update_hms0 date / 1000 * 1000)%Z.

(** [x.upper()] and [x.lower()] on a Python value: a number has neither. *)
Definition py_upper (x : Py.value) : Py.res string :=
  match x with
  | Str s => Ok (Py.upper s)
  | Num _ => Raise (AttributeError x "upper")
  end.

Definition py_lower (x : Py.value) : Py.res string :=
  match x with
  | Str s => Ok (Py.lower s)
  | Num _ => Raise (AttributeError x "lower")
  end.

(** [d[k]] *)
Definition getitem {V} (d : gmap string V) (k : string) : Py.res V :=
  match d !! k with
  | Some v => Ok v
  | None => Raise (KeyError k)
  end.

(** ** class Image *)

Module Image.

(** A prepped input image: the bands "lst" and "ndvi" and the two system
    properties, which may be missing. *)
Record Prepped := mkPrepped {
  band_lst : EE.Raster;
  band_ndvi : EE.Raster;
  system_index : option string;
  system_time_start : option Z
}.

(** The keyword arguments of [__init__]. *)
Record Config := mkConfig {
  dt_source : Py.value;
  elev_source : Py.value;
  tcorr_source : Py.value;
  tmax_source : Py.value;
  elr_flag : bool;
  tdiff_threshold : Q
}.

Definition defaults : Config :=
  mkConfig (Str "DAYMET_MEDIAN_V1") (Str "ASSET") (Str "SCENE")
           (Str "TOPOWX_MEDIAN_V0") false 15.

(** The attributes assigned by [__init__].  Those computed by Earth
    Engine are held by their value, [None] when it cannot be computed. *)
Record Fields := mkFields {
  lst : option EE.Image;
  ndvi : option EE.Image;
  _index : option string;
  _time_start : option Z;
  _scene_id : option string;
  _wrs2_tile : option string;
  _date : option Z;
  _year : option Z;
  _month : option Z;
  _start_date : option Z;
  _end_date : option Z;
  _doy : option Z;
  _dt_source : Py.value;
  _elev_source : Py.value;
  _tcorr_source : Py.value;
  _tmax_source : Py.value;
  _elr_flag : bool;
  _tdiff_threshold : Q
}.

Definition t : Type := Object Fields (option EE.Image).

Definition system_props (image : Prepped) : gmap string EE.prop :=
  let with_time :=
    match system_time_start image with
    | Some ts => <["system:time_start" := EE.PNum (inject_Z ts)]> ∅
    | None => ∅
    end in
  match system_index image with
  | Some i => <["system:index" := EE.PStr i]> with_time
  | None => with_time
  end.

(** SCENE_ID from the (possibly merged) system:index: the list of the
    last three tokens, then its elements 0, 1 and 2 joined by "_". *)
Definition scene_id_of (index : string) : option string :=
  let scene_id := EE.slice_last 3 (EE.split_on "_" index) in
  a ← scene_id !! 0%nat;
  b ← scene_id !! 1%nat;
  c ← scene_id !! 2%nat;
  Some ((((a +:+ "_") +:+ b) +:+ "_") +:+ c).

(** WRS2_TILE from the scene id. *)
Definition wrs2_tile_of (scene_id : string) : string :=
  (("p" +:+ EE.str_slice 5 8 scene_id) +:+ "r") +:+ EE.str_slice 8 11 scene_id.

Definition __init__ (image : option Prepped) (cfg : Config) : t :=
  let index := image ≫= system_index in
  let time_start := image ≫= system_time_start in
  let scene_id := index ≫= scene_id_of in
  let date := time_start in
  let start_date := _date_to_time_0utc <$> date in
  mkObject
    {| lst := (fun i => EE.mkImage "lst" (band_lst i) (system_props i))
                <$> image;
       ndvi := (fun i => EE.mkImage "ndvi" (band_ndvi i) (system_props i))
                 <$> image;
       _index := index;
       _time_start := time_start;
       _scene_id := scene_id;
       _wrs2_tile := wrs2_tile_of <$> scene_id;
       _date := date;
       _year := EE.get_year <$> date;
       _month := EE.get_month <$> date;
       _start_date := start_date;
       _end_date := EE.advance_day 1 <$> start_date;
       _doy := (fun d => (EE.getRelative_day_year d + 1)%Z) <$> date;
       _dt_source := dt_source cfg;
       _elev_source := elev_source cfg;
       _tcorr_source := tcorr_source cfg;
       _tmax_source := tmax_source cfg;
       _elr_flag := elr_flag cfg;
       _tdiff_threshold := tdiff_threshold cfg |}
    ∅ [].

(** [ee.Image.constant(x)] for a Python value [x]. *)
Definition constant_of (ee : EE.Catalog) (x : Py.value) : option EE.Image :=
  EE.constant <$> EE.Number ee x.

(** [coll.filter(ee.Filter.calendarRange(self._doy, self._doy,
    'day_of_year'))] *)
Definition doy_filter (self : Fields) (coll : list EE.Image)
  : option (list EE.Image) :=
  doy ← _doy self; Some (EE.filter_day_of_year doy doy coll).

Definition _dt (ee : EE.Catalog) (self : Fields)
  : Py.res (option EE.Image) :=
  if _is_number (_dt_source self) then
    Ok (constant_of ee (_dt_source self))
  else
    let! key := py_upper (_dt_source self) in
    if Py.str_in key ["DAYMET_MEDIAN_V0"] then
      let dt_coll :=
        doy_filter self
          (EE.ImageCollection ee "projects/usgs-ssebop/dt/daymet_median_v0") in
      Ok (EE.map_pix (EE.clamp 6 25) <$> (dt_coll ≫= EE.first))
    else if bool_decide (key = "DAYMET_MEDIAN_V1") then
      let dt_coll :=
        doy_filter self
          (EE.ImageCollection ee "projects/usgs-ssebop/dt/daymet_median_v1") in
      Ok (EE.map_pix (EE.clamp 6 25) <$> (dt_coll ≫= EE.first))
    else
      Raise (SystemExit (InvalidDt (_dt_source self))).

Definition _elev (ee : EE.Catalog) (self : Fields)
  : Py.res (option EE.Image) :=
  let! elev_image :=
    (if _is_number (_elev_source self) then
       Ok (constant_of ee (_elev_source self))
     else
       let! key := py_upper (_elev_source self) in
       if bool_decide (key = "ASSET") then
         Ok (EE.ImageAsset ee "projects/usgs-ssebop/srtm_1km")
       else if bool_decide (key = "GTOPO") then
         Ok (EE.ImageAsset ee "USGS/GTOPO30")
       else if bool_decide (key = "NED") then
         Ok (EE.ImageAsset ee "USGS/NED")
       else if bool_decide (key = "SRTM") then
         Ok (EE.ImageAsset ee "CGIAR/SRTM90_V4")
       else
         let! low := py_lower (_elev_source self) in
         if Py.startswith low "projects/" || Py.startswith low "users/" then
           Ok (match _elev_source self with
               | Str id => EE.ImageAsset ee id
               | Num _ => None
               end)
         else
           Raise (SystemExit (UnsupportedElevSource (_elev_source self))))
  in
  Ok (EE.rename "elev" <$> elev_image).

Definition scene_coll_dict : gmap string string :=
  list_to_map
    [("CIMIS", "projects/usgs-ssebop/tcorr/cimis_scene");
     ("DAYMET", "projects/usgs-ssebop/tcorr/daymet_scene");
     ("GRIDMET", "projects/usgs-ssebop/tcorr/gridmet_scene");
     ("CIMIS_MEDIAN_V1", "projects/usgs-ssebop/tcorr/cimis_median_v1_scene");
     ("DAYMET_MEDIAN_V0", "projects/usgs-ssebop/tcorr/daymet_median_v0_scene");
     ("DAYMET_MEDIAN_V1", "projects/usgs-ssebop/tcorr/daymet_median_v1_scene");
     ("GRIDMET_MEDIAN_V1", "projects/usgs-ssebop/tcorr/gridmet_median_v1_scene");
     ("TOPOWX_MEDIAN_V0", "projects/usgs-ssebop/tcorr/topowx_median_v0_scene")].

Definition month_coll_dict : gmap string string :=
  list_to_map
    [("CIMIS", "projects/usgs-ssebop/tcorr/cimis_monthly");
     ("DAYMET", "projects/usgs-ssebop/tcorr/daymet_monthly");
     ("GRIDMET", "projects/usgs-ssebop/tcorr/gridmet_monthly");
     ("CIMIS_MEDIAN_V1", "projects/usgs-ssebop/tcorr/cimis_median_v1_monthly");
     ("DAYMET_MEDIAN_V0", "projects/usgs-ssebop/tcorr/daymet_median_v0_monthly");
     ("DAYMET_MEDIAN_V1", "projects/usgs-ssebop/tcorr/daymet_median_v1_monthly");
     ("GRIDMET_MEDIAN_V1", "projects/usgs-ssebop/tcorr/gridmet_median_v1_monthly");
     ("TOPOWX_MEDIAN_V0", "projects/usgs-ssebop/tcorr/topowx_median_v0_monthly")].

Definition default_value_dict : gmap string Q :=
  list_to_map
    [("CIMIS", 0.978); ("DAYMET", 0.978); ("GRIDMET", 0.978);
     ("TOPOWX", 0.978); ("CIMIS_MEDIAN_V1", 0.978);
     ("DAYMET_MEDIAN_V0", 0.978); ("DAYMET_MEDIAN_V1", 0.978);
     ("GRIDMET_MEDIAN_V1", 0.978); ("TOPOWX_MEDIAN_V0", 0.978)].

(** [ee.Number(ftr.get(name))] *)
Definition number_property (name : string) (ftr : EE.Feature) : option Q :=
  match ftr !! name with
  | Some (EE.PNum q) => Some q
  | _ => None
  end.

(** Tcorr Index values indicate which level of Tcorr was used:
    0 scene specific, 1 mean monthly per WRS2 tile, 2 default,
    3 user defined. *)
Definition _tcorr (ee : EE.Catalog) (self : Fields)
  : Py.res (option Q * option Q) :=
  if _is_number (_tcorr_source self) then
    let tcorr := EE.Number ee (_tcorr_source self) in
    let tcorr_index := Some 3 in
    Ok (tcorr, tcorr_index)
  else
    let! tmax_key := py_upper (_tmax_source self) in
    if bool_decide (default_value_dict !! tmax_key = None) then
      Raise (SystemExit
               (InvalidTmaxSource (_tcorr_source self) (_tmax_source self)))
    else
      let! default_value := getitem default_value_dict tmax_key in
      let default_coll : list EE.Feature :=
        [ <["INDEX" := EE.PNum 2]> (<["TCORR" := EE.PNum default_value]> ∅) ] in
      let! month_id := getitem month_coll_dict tmax_key in
      let month_coll : option (list EE.Feature) :=
        wrs2_tile ← _wrs2_tile self;
        month ← _month self;
        Some (EE.filterMetadata_equals "MONTH" (EE.PNum (inject_Z month))
                (EE.filterMetadata_equals "WRS2_TILE" (EE.PStr wrs2_tile)
                   (EE.FeatureCollection ee month_id))) in
      let! key := py_upper (_tcorr_source self) in
      let! tcorr_coll :=
        (if bool_decide (key = "SCENE") then
           let! scene_coll_id := getitem scene_coll_dict tmax_key in
           let scene_coll : option (list EE.Feature) :=
             scene_id ← _scene_id self;
             Some (EE.filterMetadata_equals "SCENE_ID" (EE.PStr scene_id)
                     (EE.FeatureCollection ee scene_coll_id)) in
           Ok (m ← month_coll; s ← scene_coll;
               Some (EE.sort "INDEX"
                       (EE.merge (EE.merge default_coll m) s)))
         else if bool_decide (key = "MONTH") then
           Ok (m ← month_coll;
               Some (EE.sort "INDEX" (EE.merge default_coll m)))
         else
           Raise (SystemExit
                    (InvalidTcorrSource (_tcorr_source self)
                                        (_tmax_source self))))
      in
      let tcorr_ftr := tcorr_coll ≫= EE.first in
      let tcorr := tcorr_ftr ≫= number_property "TCORR" in
      let tcorr_index := tcorr_ftr ≫= number_property "INDEX" in
      Ok (tcorr, tcorr_index).

(** [ee.Image(coll.filter(doy_filter).first()).set('TMAX_VERSION', v)] *)
Definition median_image (ee : EE.Catalog) (self : Fields)
    (id median_version : string) : option EE.Image :=
  let median_coll := EE.ImageCollection ee id in
  EE.set "TMAX_VERSION" (EE.PStr median_version)
    <$> (doy_filter self median_coll ≫= EE.first).

(** [ee.Image(ee.Algorithms.If(daily_coll.size().gt(0), daily_image,
    median_image))], with [daily_image] the first of [daily_coll] tagged
    with today's date. *)
Definition daily_or_median (date_today : string)
    (daily_coll : option (list EE.Image)) (median_image : option EE.Image)
  : option EE.Image :=
  let daily_image :=
    EE.set "TMAX_VERSION" (EE.PStr date_today)
      <$> (daily_coll ≫= EE.first) in
  coll ← daily_coll;
  if (0 <? length coll)%nat then daily_image else median_image.

(** Fall back on median Tmax if daily image does not exist.
    [date_today] is [datetime.datetime.today().strftime('%Y-%m-%d')]. *)
Definition _tmax (ee : EE.Catalog) (date_today : string) (self : Fields)
  : Py.res (option EE.Image) :=
  let! tmax_image :=
    (if _is_number (_tmax_source self) then
       Ok (EE.set "TMAX_VERSION" (EE.format_custom (_tmax_source self))
             <$> (EE.rename "tmax" <$> constant_of ee (_tmax_source self)))
     else
       let! key := py_upper (_tmax_source self) in
       if bool_decide (key = "CIMIS") then
         let daily_coll :=
           start ← _start_date self;
           stop ← _end_date self;
           map _c_to_k
             <$> mapM (EE.select "Tx" "tmax")
                   (EE.filterDate start stop
                      (EE.ImageCollection ee
                         "projects/climate-engine/cimis/daily")) in
         let median_version := "median_v1" in
         Ok (daily_or_median date_today daily_coll
               (median_image ee self
                  ("projects/usgs-ssebop/tmax/cimis_" +:+ median_version)
                  median_version))
       else if bool_decide (key = "DAYMET") then
         (* DAYMET does not include Dec 31st on leap years: one extra
            day is added to the end date *)
         let daily_coll :=
           start ← _start_date self;
           stop ← _end_date self;
           map _c_to_k
             <$> mapM (EE.select "tmax" "tmax")
                   (EE.filterDate start (EE.advance_day 1 stop)
                      (EE.ImageCollection ee "NASA/ORNL/DAYMET_V3")) in
         let median_version := "median_v0" in
         Ok (daily_or_median date_today daily_coll
               (median_image ee self
                  ("projects/usgs-ssebop/tmax/daymet_" +:+ median_version)
                  median_version))
       else if bool_decide (key = "GRIDMET") then
         let daily_coll :=
           start ← _start_date self;
           stop ← _end_date self;
           mapM (EE.select "tmmx" "tmax")
             (EE.filterDate start stop
                (EE.ImageCollection ee "IDAHO_EPSCOR/GRIDMET")) in
         let median_version := "median_v1" in
         Ok (daily_or_median date_today daily_coll
               (median_image ee self
                  ("projects/usgs-ssebop/tmax/gridmet_" +:+ median_version)
                  median_version))
       else if bool_decide (key = "CIMIS_MEDIAN_V1") then
         let median_version := "median_v1" in
         Ok (median_image ee self
               ("projects/usgs-ssebop/tmax/cimis_" +:+ median_version)
               median_version)
       else if bool_decide (key = "DAYMET_MEDIAN_V0") then
         let median_version := "median_v0" in
         Ok (median_image ee self
               ("projects/usgs-ssebop/tmax/daymet_" +:+ median_version)
               median_version)
       else if bool_decide (key = "DAYMET_MEDIAN_V1") then
         let median_version := "median_v1" in
         Ok (median_image ee self
               ("projects/usgs-ssebop/tmax/daymet_" +:+ median_version)
               median_version)
       else if bool_decide (key = "GRIDMET_MEDIAN_V1") then
         let median_version := "median_v1" in
         Ok (median_image ee self
               ("projects/usgs-ssebop/tmax/gridmet_" +:+ median_version)
               median_version)
       else if bool_decide (key = "TOPOWX_MEDIAN_V0") then
         let median_version := "median_v0" in
         Ok (median_image ee self
               ("projects/usgs-ssebop/tmax/topowx_" +:+ median_version)
               median_version)
       else
         Raise (SystemExit (UnsupportedTmaxSource (_tmax_source self))))
  in
  Ok (EE.set "TMAX_SOURCE" (EE.prop_of_value (_tmax_source self))
        <$> tmax_image).

(** The expression ['(lst * (-1) + tmax * tcorr + dt) / dt']; a
    division by 0 gives 0, in [Q] as in Earth Engine. *)
Definition etf_expression (tcorr lst tmax dt : Q) : Q :=
  (lst * (-1) + tmax * tcorr + dt) / dt.

(** The chain of [etf] for one pixel: the expression, the mask below
    1.3, the clamp, the Tdiff mask. *)
Definition etf_pixel (tcorr tdiff_threshold : Q) (lst tmax dt : EE.Pixel)
  : EE.Pixel :=
  let etf := (l ← lst; t ← tmax; d ← dt; Some (etf_expression tcorr l t d)) in
  EE.updateMask (EE.lte tdiff_threshold (EE.subtract tmax lst))
    (EE.clamp 0 1.05
       (EE.updateMask (EE.lt 1.3 etf) etf)).

(** The body of [etf]: compute SSEBop ETf for a single image. *)
Definition etf_fn (ee : EE.Catalog) (date_today : string) (self : t)
  : Py.res (option EE.Image) :=
  let self := fields self in
  let! tc := _tcorr ee self in
  let! tmax := _tmax ee date_today self in
  let! dt := _dt ee self in
  Ok (lst ← lst self;
      tcorr ← tc.1;
      tcorr_index ← tc.2;
      tmax ← tmax;
      dt ← dt;
      index ← _index self;
      time_start ← _time_start self;
      let etf :=
        EE.mkImage (EE.band lst)
          (fun c => etf_pixel tcorr (_tdiff_threshold self)
                      (EE.pix lst c) (EE.pix tmax c) (EE.pix dt c))
          ∅ in
      let etf :=
        EE.setMulti
          [("system:index", EE.PStr index);
           ("system:time_start", EE.PNum (inject_Z time_start));
           ("TCORR", EE.PNum tcorr);
           ("TCORR_INDEX", EE.PNum tcorr_index)] etf in
      Some (EE.rename "etf" etf)).

(** The property [etf], made lazy by the decorator. *)
Definition etf (ee : EE.Catalog) (date_today : string)
  : t -> Py.res (option EE.Image) * t :=
  lazy_property "etf" (etf_fn ee date_today).

(** [_ndvi(toa_image)]: [normalizedDifference(['nir', 'red'])]. *)
Definition _ndvi (toa_image : option EE.Scene) : option EE.Image :=
  toa ← toa_image;
  nir ← EE.bands toa !! "nir";
  red ← EE.bands toa !! "red";
  Some (EE.mkImage "ndvi"
          (fun c => EE.normalizedDifference (nir c) (red c)) ∅).

(** The chain of [_emissivity] for one pixel of NDVI. *)
Definition emissivity_pixel (ndvi : EE.Pixel) : EE.Pixel :=
  let Pv := (fun n => ((n - 0.2) / 0.3) ^ 2) <$> ndvi in
  (* typical soil emissivity 0.97, vegetation emissivity 0.99 *)
  let dE := (fun pv => ((1 - 0.97) * (1 - pv)) * (0.55 * 0.99)) <$> Pv in
  let RangeEmiss :=
    EE.lift2 (fun pv de => ((0.99 * pv) + (0.97 * (1 - pv)) + de)) Pv dE in
  let emissivity :=
    EE.where_ (EE.And (EE.gte 0.2 ndvi) (EE.lte 0.5 ndvi)) RangeEmiss
      (EE.where_ (EE.gt 0.5 ndvi) (Some 0.99)
         (EE.where_ (EE.And (EE.gte 0 ndvi) (EE.lt 0.2 ndvi)) (Some 0.977)
            (EE.where_ (EE.lt 0 ndvi) (Some 0.985) ndvi))) in
  EE.clamp 0.977 0.99 emissivity.

(** [_emissivity(toa_image)]: emissivity as a function of NDVI. *)
Definition _emissivity (toa_image : option EE.Scene) : option EE.Image :=
  ndvi ← _ndvi toa_image;
  Some (EE.copyProperties ndvi ["system:index"; "system:time_start"]
          (EE.rename "emissivity" (EE.map_pix emissivity_pixel ndvi))).

(** The three expressions of [_lst] for one pixel. *)
Definition lst_pixel (ee : EE.Catalog) (k1 k2 : Q)
    (ts_brightness emissivity : EE.Pixel) : EE.Pixel :=
  let thermal_rad_toa :=
    (fun ts => k1 / (EE.exp ee (k2 / ts) - 1)) <$> ts_brightness in
  let rc :=
    EE.lift2 (fun rad emiss => ((rad - 0.91) / 0.866) - ((1 - emiss) * 1.32))
      thermal_rad_toa emissivity in
  EE.lift2 (fun emiss rc => k2 / EE.log ee (emiss * k1 / rc + 1))
    emissivity rc.

Definition scene_number (name : string) (s : EE.Scene) : option Q :=
  match EE.scene_props s !! name with
  | Some (EE.PNum q) => Some q
  | _ => None
  end.

Definition scene_string (name : string) (s : EE.Scene) : option string :=
  match EE.scene_props s !! name with
  | Some (EE.PStr x) => Some x
  | _ => None
  end.

(** [_lst(toa_image)]: emissivity corrected land surface temperature
    from brightness temperature. *)
Definition _lst (ee : EE.Catalog) (toa_image : option EE.Scene)
  : option EE.Image :=
  toa ← toa_image;
  k1 ← scene_number "k1_constant" toa;
  k2 ← scene_number "k2_constant" toa;
  ts_brightness ← EE.bands toa !! "lst";
  emissivity ← _emissivity toa_image;
  Some (EE.mkImage "lst"
          (fun c => lst_pixel ee k1 k2 (ts_brightness c)
                      (EE.pix emissivity c)) ∅).

Definition input_bands : gmap string (list string) :=
  list_to_map
    [("LANDSAT_5", ["B1"; "B2"; "B3"; "B4"; "B5"; "B7"; "B6"; "BQA"]);
     ("LANDSAT_7", ["B1"; "B2"; "B3"; "B4"; "B5"; "B7"; "B6_VCID_1"; "BQA"]);
     ("LANDSAT_8", ["B2"; "B3"; "B4"; "B5"; "B6"; "B7"; "B10"; "BQA"])].

Definition output_bands : list string :=
  ["blue"; "green"; "red"; "nir"; "swir1"; "swir2"; "lst"; "BQA"].

Definition k1 : gmap string string :=
  list_to_map
    [("LANDSAT_5", "K1_CONSTANT_BAND_6");
     ("LANDSAT_7", "K1_CONSTANT_BAND_6_VCID_1");
     ("LANDSAT_8", "K1_CONSTANT_BAND_10")].

Definition k2 : gmap string string :=
  list_to_map
    [("LANDSAT_5", "K2_CONSTANT_BAND_6");
     ("LANDSAT_7", "K2_CONSTANT_BAND_6_VCID_1");
     ("LANDSAT_8", "K2_CONSTANT_BAND_10")].

(** [toa.select(names, new_names)] on a scene. *)
Definition select_bands (names new_names : list string) (s : EE.Scene)
  : option (gmap string EE.Raster) :=
  rasters ← mapM (fun n => EE.bands s !! n) names;
  Some (list_to_map (zip new_names rasters)).

(** [from_landsat_c1_toa(toa_image)]: a raw Landsat Collection 1 TOA
    image is renamed by spacecraft, LST and NDVI are computed, and the
    class is instantiated. *)
Definition from_landsat_c1_toa (ee : EE.Catalog)
    (toa_image : option EE.Scene) (kwargs : Config) : t :=
  let prep_image : option EE.Scene :=
    toa ← toa_image;
    spacecraft_id ← scene_string "SPACECRAFT_ID" toa;
    names ← input_bands !! spacecraft_id;
    renamed ← select_bands names output_bands toa;
    k1_name ← k1 !! spacecraft_id;
    k2_name ← k2 !! spacecraft_id;
    k1_constant ← scene_number k1_name toa;
    k2_constant ← scene_number k2_name toa;
    Some (EE.mkScene renamed
            (<["k2_constant" := EE.PNum k2_constant]>
               (<["k1_constant" := EE.PNum k1_constant]>
                  (EE.scene_props toa)))
            (EE.footprint toa)) in
  let input_image : option Prepped :=
    toa ← toa_image;
    lst ← _lst ee prep_image;
    ndvi ← _ndvi prep_image;
    Some (mkPrepped (EE.pix lst) (EE.pix ndvi)
            (scene_string "system:index" toa)
            (EE.scene_time_start toa)) in
  __init__ input_image kwargs.

End Image.

(** ** [collection] *)

(** The names [dir(Image)] lists: the class's own and those of
    [object]. *)
Definition dir_Image : list string :=
  ["__class__"; "__delattr__"; "__dict__"; "__dir__"; "__doc__"; "__eq__";
   "__format__"; "__ge__"; "__getattribute__"; "__gt__"; "__hash__";
   "__init__"; "__init_subclass__"; "__le__"; "__lt__"; "__module__";
   "__ne__"; "__new__"; "__reduce__"; "__reduce_ex__"; "__repr__";
   "__setattr__"; "__sizeof__"; "__str__"; "__subclasshook__";
   "__weakref__"; "_dt"; "_elev"; "_emissivity"; "_lst"; "_ndvi"; "_tcorr";
   "_tmax"; "etf"; "from_landsat_c1_toa"].

Definition landsat_c1_toa_collections : list string :=
  ["LANDSAT/LC08/C01/T1_RT_TOA";
   "LANDSAT/LE07/C01/T1_RT_TOA";
   "LANDSAT/LC08/C01/T1_TOA";
   "LANDSAT/LE07/C01/T1_TOA";
   "LANDSAT/LT05/C01/T1_TOA"].

(** [getattr(model_obj, variable)] for the names that are properties. *)
Definition getattr_Image (ee : EE.Catalog) (date_today : string)
    (model_obj : Image.t) (variable : string) : Py.res (option EE.Image) :=
  if bool_decide (variable = "etf") then
    (Image.etf ee date_today model_obj).1
  else Raise (AttributeError (Str "Image") variable).

(** The function handed to [map]. *)
Definition compute (ee : EE.Catalog) (date_today variable : string)
    (image : option EE.Scene) : Py.res (option EE.Image) :=
  let model_obj := Image.from_landsat_c1_toa ee image Image.defaults in
  getattr_Image ee date_today model_obj variable.

(** [coll.map(f)]: the client calls [f] once, on a placeholder, when
    [map] is called, and an exception of [f] leaves [map] then; the
    elements are computed when the collection is evaluated. *)
Definition map_scenes (f : option EE.Scene -> Py.res (option EE.Image))
    (coll : list EE.Scene) : Py.res (option (list EE.Image)) :=
  let! _placeholder := f None in
  Ok (mapM (fun s => match f (Some s) with
                     | Ok image => image
                     | Raise _ => None
                     end) coll).

(** The loop [for coll_id in collections], [variable_coll] being the
    collection merged so far. *)
Fixpoint build_variable_coll (ee : EE.Catalog) (date_today variable : string)
    (start_date end_date : Z) (geometry : list EE.Coord)
    (collections : list string) (variable_coll : option (list EE.Image))
  : Py.res (option (list EE.Image)) :=
  match collections with
  | [] => Ok variable_coll
  | coll_id :: rest =>
      if Py.str_in coll_id landsat_c1_toa_collections then
        let! var_coll :=
          map_scenes (compute ee date_today variable)
            (EE.filterBounds geometry
               (EE.scene_filterDate start_date end_date
                  (EE.SceneCollection ee coll_id))) in
        build_variable_coll ee date_today variable start_date end_date
          geometry rest
          (a ← variable_coll; b ← var_coll; Some (EE.merge a b))
      else
        Raise (ValueError ("unsupported collection: " +:+ coll_id))
  end.

(** [collection(variable, collections, start_date, end_date, t_interval,
    geometry)].  [daily_et] is [openet.interp.daily_et], which is not
    part of the module. *)
Definition collection (ee : EE.Catalog) (date_today : string)
    (daily_et : list EE.Image -> list EE.Image -> Z -> string
                -> list EE.Image)
    (variable : string) (collections : list string)
    (start_date end_date : Z) (t_interval : string)
    (geometry : list EE.Coord) : Py.res (option (list EE.Image)) :=
  let variable := Py.lower variable in
  if negb (Py.str_in (Py.lower variable) dir_Image) then
    Raise (ValueError ("unsupported variable: " +:+ variable))
  else if negb (Py.str_in (Py.lower variable) ["etf"]) then
    Raise (ValueError ("unsupported variable: " +:+ variable))
  else
    let! variable_coll :=
      build_variable_coll ee date_today variable start_date end_date
        geometry collections (Some []) in
    let et_reference_coll :=
      EE.filterDate start_date end_date
        <$> mapM (EE.select "etr" "etr")
              (EE.ImageCollection ee "IDAHO_EPSCOR/GRIDMET") in
    Ok (reference ← et_reference_coll;
        sparse ← variable_coll;
        Some (daily_et reference sparse 32%Z "linear")).

(** ** Vocabulary of the statements *)

(** An upper-case letter other than E, I and N: no text that [float]
    accepts starts with such a letter in either case. *)
Definition keyword_initial (c : ascii) : bool :=
  let n := nat_of_ascii c in
  (65 <=? n)%nat && (n <=? 90)%nat
  && negb (n =? 69)%nat && negb (n =? 73)%nat && negb (n =? 78)%nat.

(** Every row of a Tcorr table carries the index of its tier. *)
Definition tier_rows (tier : Q) (coll : list EE.Feature) : Prop :=
  Forall (fun f => f !! "INDEX" = Some (EE.PNum tier)) coll.

(** The tokens of a list joined by a separator. *)
Fixpoint join (sep : string) (l : list string) : string :=
  match l with
  | [] => ""
  | [x] => x
  | x :: r => x +:+ sep +:+ join sep r
  end.

(** Reading [etf] once for each environment of a list, in order: the
    results, and the instance at the end. *)
Fixpoint read_etf (envs : list (EE.Catalog * string)) (self : Image.t)
  : list (Py.res (option EE.Image)) * Image.t :=
  match envs with
  | [] => ([], self)
  | env :: rest =>
      let access := Image.etf env.1 env.2 self in
      let later := read_etf rest access.2 in
      (access.1 :: later.1, later.2)
  end.

(** How often the body of the method [name] was run to its end. *)
Definition returned_calls {F V} (name : string) (self : Object F V) : nat :=
  length (List.filter (fun c => bool_decide (c = (name, true))) (calls self)).

(** ** Example data: the scene LC08_043033_20150805 *)

Definition monthly_row (tile : string) (month : Z) (tcorr : Q) : EE.Feature :=
  <["WRS2_TILE" := EE.PStr tile]>
    (<["MONTH" := EE.PNum (inject_Z month)]>
       (<["TCORR" := EE.PNum tcorr]> (<["INDEX" := EE.PNum 1]> ∅))).

Definition scene_row (scene_id : string) (tcorr : Q) : EE.Feature :=
  <["SCENE_ID" := EE.PStr scene_id]>
    (<["TCORR" := EE.PNum tcorr]> (<["INDEX" := EE.PNum 0]> ∅)).

(** An image of one value everywhere, dated [time_start]. *)
Definition dated_image (band : string) (value : Q) (time_start : Z)
  : EE.Image :=
  EE.mkImage band (fun _ => Some value)
    (<["system:time_start" := EE.PNum (inject_Z time_start)]> ∅).

(** 2015-08-05 00:00 UTC, and the time of the overpass. *)
Definition day_20150805 : Z := 1438732800000.
Definition overpass_20150805 : Z := 1438799190000.

(** A catalogue with DAYMET Tcorr tables, the DAYMET medians and, when
    [daily] is a date, a DAYMET daily image of that date. *)
Definition example_catalog (daily : option Z) : EE.Catalog :=
  EE.mkCatalog
    (fun id =>
       if bool_decide (id = "projects/usgs-ssebop/tcorr/daymet_monthly")
       then [monthly_row "p043r033" 7 0.96; monthly_row "p043r033" 8 0.97;
             monthly_row "p042r033" 8 0.98]
       else if bool_decide (id = "projects/usgs-ssebop/tcorr/daymet_scene")
       then [scene_row "LC08_043033_20150720" 0.985;
             scene_row "LC08_043033_20150805" 0.99]
       else [])
    (fun id =>
       if bool_decide (id = "NASA/ORNL/DAYMET_V3")
       then match daily with
            | Some date => [dated_image "tmax" 26.85 date]
            | None => []
            end
       else if bool_decide (id = "projects/usgs-ssebop/tmax/daymet_median_v0")
       then [dated_image "tmax" 301 day_20150805]
       else if bool_decide (id = "projects/usgs-ssebop/dt/daymet_median_v1")
       then [dated_image "dt" 30 day_20150805]
       else [])
    (fun _ => [])
    (fun _ => None)
    (fun s => if bool_decide (s = "0.95") then Some 0.95
              else if bool_decide (s = "20") then Some 20
              else None)
    (fun x => x)
    (fun x => x).

(** The catalogue with a DAYMET image for the day of the scene. *)
Definition example_ee : EE.Catalog := example_catalog (Some day_20150805).

Definition example_image : Image.Prepped :=
  Image.mkPrepped (fun _ => Some 295) (fun _ => Some 0.3)
    (Some "LC08_043033_20150805") (Some overpass_20150805).

Definition example_config (dt tcorr tmax : Py.value) : Image.Config :=
  Image.mkConfig dt (Num 100) tcorr tmax false 15.

Definition example_object (dt tcorr tmax : Py.value) : Image.t :=
  Image.__init__ (Some example_image) (example_config dt tcorr tmax).

Definition example_self (dt tcorr tmax : Py.value) : Image.Fields :=
  fields (example_object dt tcorr tmax).

(** The Landsat 8 TOA scene of that overpass, uniform over the grid. *)
Definition example_toa : EE.Scene :=
  EE.mkScene
    (list_to_map
       [("B2", fun _ => Some 0.08); ("B3", fun _ => Some 0.1);
        ("B4", fun _ => Some 0.1); ("B5", fun _ => Some 0.3);
        ("B6", fun _ => Some 0.2); ("B7", fun _ => Some 0.15);
        ("B10", fun _ => Some 300); ("B11", fun _ => Some 298);
        ("BQA", fun _ => Some 2720)])
    (list_to_map
       [("SPACECRAFT_ID", EE.PStr "LANDSAT_8");
        ("K1_CONSTANT_BAND_10", EE.PNum 774.8853);
        ("K2_CONSTANT_BAND_10", EE.PNum 1321.0789);
        ("system:index", EE.PStr "LC08_043033_20150805");
        ("system:time_start", EE.PNum (inject_Z overpass_20150805))])
    [(0, 0)%Z].

(** The example catalogue with that scene in the Landsat 8 collection,
    a TOPOWX median for its day and a GRIDMET reference ET image. *)
Definition example_landsat_ee : EE.Catalog :=
  EE.mkCatalog
    (EE.FeatureCollection example_ee)
    (fun id =>
       if bool_decide (id = "projects/usgs-ssebop/tmax/topowx_median_v0")
       then [dated_image "tmax" 301 day_20150805]
       else if bool_decide (id = "IDAHO_EPSCOR/GRIDMET")
       then [dated_image "etr" 7 day_20150805]
       else EE.ImageCollection example_ee id)
    (fun id =>
       if bool_decide (id = "LANDSAT/LC08/C01/T1_TOA") then [example_toa]
       else [])
    (EE.ImageAsset example_ee)
    (EE.number_of_str example_ee)
    (EE.exp example_ee)
    (EE.log example_ee).

(** * Properties *)

(** ** The model on examples *)

Example is_number_examples :
  map _is_number [Str "0.95"; Str "20"; Str " -1_0.5e+3 "; Str ".5"; Str "5.";
                  Str "nan"; Str "-Infinity"; Num 0.95]
  = [true; true; true; true; true; true; true; true]
  /\ map _is_number [Str "SCENE"; Str "MONTH"; Str "DAYMET"; Str ""; Str ".";
                     Str "1e"; Str "1__0"; Str "_1"; Str "1 2"; Str "e5";
                     Str "0x10"; Str "users/me/dem"]
  = [false; false; false; false; false; false; false; false; false; false;
     false; false].
Proof. split; reflexivity. Qed.

Example example_scene_identity :
  let self := example_self (Num 20) (Str "SCENE") (Str "DAYMET") in
  (Image._scene_id self, Image._wrs2_tile self)
  = (Some "LC08_043033_20150805", Some "p043r033")
  /\ (Image._year self, Image._month self, Image._doy self)
     = (Some 2015, Some 8, Some 217)%Z
  /\ (Image._start_date self, Image._end_date self)
     = (Some 1438732800000, Some 1438819200000)%Z.
Proof. repeat split. Qed.

(** ** Comparisons on [Q] *)

Lemma Qltb_lt x y : EE.Qltb x y = true <-> x < y.
Proof.
  unfold EE.Qltb. rewrite negb_true_iff. split.
  - intros H. apply Qnot_le_lt. intros Hle.
    apply Qle_bool_iff in Hle. congruence.
  - intros H. destruct (Qle_bool y x) eqn:E; [|reflexivity].
    apply Qle_bool_iff in E. exfalso. apply (Qlt_not_le _ _ H E).
Qed.

Lemma Qltb_ge x y : EE.Qltb x y = false <-> y <= x.
Proof. unfold EE.Qltb. rewrite negb_false_iff. apply Qle_bool_iff. Qed.

Lemma Qle_bool_gt x y : Qle_bool x y = false <-> y < x.
Proof.
  rewrite <- Qltb_lt. unfold EE.Qltb.
  destruct (Qle_bool x y); simpl; split; congruence.
Qed.

Lemma nonzero_of_bool b : EE.nonzero (EE.of_bool b) = b.
Proof. destruct b; reflexivity. Qed.

(** Decide the comparisons of the goal from the linear hypotheses. *)
Ltac qbool :=
  repeat match goal with
  | |- context [EE.Qltb ?a ?b] =>
      first [ replace (EE.Qltb a b) with true
                by (symmetry; apply Qltb_lt; lra)
            | replace (EE.Qltb a b) with false
                by (symmetry; apply Qltb_ge; lra) ]
  | |- context [Qle_bool ?a ?b] =>
      first [ replace (Qle_bool a b) with true
                by (symmetry; apply Qle_bool_iff; lra)
            | replace (Qle_bool a b) with false
                by (symmetry; apply Qle_bool_gt; lra) ]
  end.

Lemma clampQ_bounds lo hi x : lo <= hi -> lo <= EE.clampQ lo hi x <= hi.
Proof.
  intros Hlh. unfold EE.clampQ.
  destruct (EE.Qltb x lo) eqn:E1; [lra|].
  destruct (EE.Qltb hi x) eqn:E2; [lra|].
  apply Qltb_ge in E1, E2. lra.
Qed.

Lemma clampQ_inside lo hi x : lo <= x -> x <= hi -> EE.clampQ lo hi x = x.
Proof. intros H1 H2. unfold EE.clampQ. qbool. reflexivity. Qed.

Lemma clampQ_idempotent lo hi x :
  lo <= hi -> EE.clampQ lo hi (EE.clampQ lo hi x) = EE.clampQ lo hi x.
Proof.
  intros Hlh. destruct (clampQ_bounds lo hi x Hlh).
  now apply clampQ_inside.
Qed.

(** ** Emissivity *)

Ltac emissivity_chain :=
  unfold Image.emissivity_pixel, EE.where_, EE.And, EE.lift2, EE.gte,
    EE.lte, EE.gt, EE.lt, EE.clamp;
  cbn [fmap option_fmap option_map mbind option_bind];
  rewrite !nonzero_of_bool.

Lemma emissivity_negative n :
  n < 0 -> Image.emissivity_pixel (Some n) = Some 0.985.
Proof. intros H. emissivity_chain. qbool. reflexivity. Qed.

Lemma emissivity_low n :
  0 <= n -> n < 0.2 -> Image.emissivity_pixel (Some n) = Some 0.977.
Proof. intros H1 H2. emissivity_chain. qbool. reflexivity. Qed.

Lemma emissivity_high n :
  0.5 < n -> Image.emissivity_pixel (Some n) = Some 0.99.
Proof. intros H. emissivity_chain. qbool. reflexivity. Qed.

Lemma Pv_unit n :
  0.2 <= n -> n <= 0.5 -> 0 <= ((n - 0.2) / 0.3) ^ 2 <= 1.
Proof.
  intros H1 H2. set (r := (n - 0.2) / 0.3).
  assert (0 <= r <= 1) as [Hr0 Hr1].
  { subst r. unfold Qdiv. change (/ 0.3) with (10 # 3). split; lra. }
  change (r ^ 2) with (r * r). split; nra.
Qed.

Lemma emissivity_range n :
  0.2 <= n -> n <= 0.5 ->
  let Pv := ((n - 0.2) / 0.3) ^ 2 in
  let dE := (1 - 0.97) * (1 - Pv) * (0.55 * 0.99) in
  Image.emissivity_pixel (Some n) = Some (0.99 * Pv + 0.97 * (1 - Pv) + dE)
  /\ 0.977 <= 0.99 * Pv + 0.97 * (1 - Pv) + dE <= 0.99.
Proof.
  intros H1 H2 Pv dE.
  destruct (Pv_unit n H1 H2) as [Hp0 Hp1]. fold Pv in Hp0, Hp1.
  assert (0.977 <= 0.99 * Pv + 0.97 * (1 - Pv) + dE <= 0.99) as Hb
    by (subst dE; lra).
  split; [|exact Hb].
  emissivity_chain. qbool. cbn [andb]. fold Pv. fold dE.
  f_equal. apply clampQ_inside; apply Hb.
Qed.



(** A masked NDVI pixel gives a masked emissivity pixel, and the image
    of [_emissivity] is [emissivity_pixel] at every pixel of NDVI. *)
Lemma emissivity_image (toa : EE.Scene) (img : EE.Image) :
  Image._emissivity (Some toa) = Some img ->
  exists ndvi, Image._ndvi (Some toa) = Some ndvi
    /\ forall c, EE.pix img c = Image.emissivity_pixel (EE.pix ndvi c).
Proof.
  unfold Image._emissivity. intros H.
  destruct (Image._ndvi (Some toa)) as [ndvi|]; [|discriminate].
  exists ndvi. split; [reflexivity|].
  cbn in H. injection H as <-. intros c.
  unfold EE.copyProperties. cbn.
  destruct (EE.get "system:index" ndvi), (EE.get "system:time_start" ndvi);
    reflexivity.
Qed.

(** ** ETf *)

Lemma etf_expression_raw tcorr lst tmax dt :
  Image.etf_expression tcorr lst tmax dt == (tmax * tcorr - lst + dt) / dt.
Proof. unfold Image.etf_expression, Qdiv. ring. Qed.

(** The chain on a pixel where the three inputs are valid. *)
Lemma etf_pixel_cases tcorr thr lst tmax dt :
  Image.etf_pixel tcorr thr (Some lst) (Some tmax) (Some dt)
  = if Qle_bool 1.3 (Image.etf_expression tcorr lst tmax dt) then None
    else if EE.Qltb thr (tmax - lst) then None
    else Some (EE.clampQ 0 1.05 (Image.etf_expression tcorr lst tmax dt)).
Proof.
  unfold Image.etf_pixel, EE.updateMask, EE.lte, EE.lt, EE.subtract,
    EE.lift2, EE.clamp, EE.Qltb.
  cbn [fmap option_fmap option_map mbind option_bind].
  rewrite !nonzero_of_bool.
  destruct (Qle_bool 1.3 _), (Qle_bool (tmax - lst) thr); reflexivity.
Qed.

(** A masked input pixel gives a masked ETf pixel. *)
Lemma etf_pixel_masked tcorr thr lst tmax dt :
  lst = None \/ tmax = None \/ dt = None ->
  Image.etf_pixel tcorr thr lst tmax dt = None.
Proof.
  intros H. destruct lst, tmax, dt; try reflexivity.
  destruct H as [H | [H | H]]; discriminate.
Qed.

(** The image of [etf] is [etf_pixel] of the resolved inputs at every
    pixel, with the instance's threshold. *)
Lemma etf_fn_pixels ee date_today (self : Image.t) img :
  Image.etf_fn ee date_today self = Ok (Some img) ->
  exists lst tmax dt tcorr tcorr_index,
    Image.lst (fields self) = Some lst
    /\ Image._tcorr ee (fields self) = Ok (Some tcorr, Some tcorr_index)
    /\ Image._tmax ee date_today (fields self) = Ok (Some tmax)
    /\ Image._dt ee (fields self) = Ok (Some dt)
    /\ EE.get "TCORR" img = Some (EE.PNum tcorr)
    /\ EE.get "TCORR_INDEX" img = Some (EE.PNum tcorr_index)
    /\ EE.band img = "etf"
    /\ forall c,
         EE.pix img c
         = Image.etf_pixel tcorr (Image._tdiff_threshold (fields self))
             (EE.pix lst c) (EE.pix tmax c) (EE.pix dt c).
Proof.
  unfold Image.etf_fn. intros H.
  destruct (Image._tcorr ee (fields self)) as [[tc ti]|]; [|discriminate].
  destruct (Image._tmax ee date_today (fields self)) as [tm|];
    [|discriminate].
  destruct (Image._dt ee (fields self)) as [d|]; [|discriminate].
  cbn in H. injection H as H.
  destruct (Image.lst (fields self)) as [l|]; [|discriminate].
  destruct tc as [tc|]; [|discriminate].
  destruct ti as [ti|]; [|discriminate].
  destruct tm as [tm|]; [|discriminate].
  destruct d as [d|]; [|discriminate].
  destruct (Image._index (fields self)) as [i|]; [|discriminate].
  destruct (Image._time_start (fields self)) as [ts|]; [|discriminate].
  cbn in H. injection H as <-.
  exists l, tm, d, tc, ti. repeat split; reflexivity.
Qed.



(** The order matters: clamping before the 1.3 mask would keep the pixel
    of raw ratio 1.35, at 1.05. *)
Lemma clamp_before_mask_differs :
  let etf := Some (Image.etf_expression 1 296.5 300 10) in
  EE.clamp 0 1.05 (EE.updateMask (EE.lt 1.3 etf) etf) = None
  /\ (let clamped := EE.clamp 0 1.05 etf in
      EE.updateMask (EE.lt 1.3 clamped) clamped)
     = Some (EE.clampQ 0 1.05 (Image.etf_expression 1 296.5 300 10)).
Proof. split; reflexivity. Qed.

(** ** Keywords are not numbers *)

Lemma lstrip_snoc l c :
  Py.is_space c = false ->
  exists l', Py.lstrip (l ++ [c])%list = (l' ++ [c])%list.
Proof.
  intros Hc. induction l as [|x l IH]; cbn.
  - rewrite Hc. now exists [].
  - destruct (Py.is_space x); [exact IH|]. now exists (x :: l).
Qed.

Lemma strip_cons c r :
  Py.is_space c = false -> exists r', Py.strip (c :: r) = c :: r'.
Proof.
  intros Hc. unfold Py.strip. cbn [Py.lstrip]. rewrite Hc.
  cbn [rev]. destruct (lstrip_snoc (rev r) c Hc) as [l' ->].
  rewrite rev_app_distr. cbn. now exists (rev l').
Qed.

Lemma keyword_initial_char c :
  keyword_initial (Py.upper_ascii c) = true ->
  Py.is_space c = false /\ Py.is_sign c = false /\ Py.is_digit c = false
  /\ Py.is_dot c = false /\ Py.is_e c = false
  /\ Py.lower_ascii c <> "i"%char /\ Py.lower_ascii c <> "n"%char.
Proof.
  destruct c as [[] [] [] [] [] [] [] []]; vm_compute; intros H;
    try discriminate H; repeat split; discriminate.
Qed.

Lemma float_ok_initial c r :
  keyword_initial (Py.upper_ascii c) = true ->
  Py.float_ok (String c r) = false.
Proof.
  intros H.
  destruct (keyword_initial_char c H)
    as (Hsp & Hsg & Hdg & Hdot & He & Hi & Hn).
  unfold Py.float_ok. cbn [list_ascii_of_string].
  destruct (strip_cons c (list_ascii_of_string r) Hsp) as [r' ->].
  cbn [Py.drop_sign]. rewrite Hsg.
  apply orb_false_iff. split.
  - unfold Py.inf_or_nan, Py.str_in. apply bool_decide_eq_false.
    cbn [string_of_list_ascii Py.lower Py.map_string].
    intros Hin.
    repeat (apply elem_of_cons in Hin as [Hin|Hin];
            [injection Hin as Hc _; congruence|]).
    inversion Hin.
  - unfold Py.floatnumber. cbn [Py.break]. rewrite He.
    assert (forall l, Py.number (c :: l) = false) as Hnum.
    { intros l. unfold Py.number. cbn [Py.break]. rewrite Hdot.
      destruct (Py.break Py.is_dot l) as [a [b|]]; cbn; rewrite Hdg;
        reflexivity. }
    destruct (Py.break Py.is_e r') as [m [x|]]; rewrite Hnum; reflexivity.
Qed.

(** A string whose upper case starts like a keyword is not a number. *)
Lemma keyword_not_number s c k :
  Py.upper s = String c k -> keyword_initial c = true ->
  _is_number (Str s) = false.
Proof.
  destruct s as [|c0 r]; [discriminate|]. cbn. intros H Hk.
  injection H as Hc _. apply float_ok_initial. congruence.
Qed.

(** ** The first feature of a sorted collection *)

Lemma first_insert_sorted name f l :
  EE.first (EE.insert_sorted name f l)
  = match EE.first l with
    | None => Some f
    | Some g =>
        if EE.key_le (EE.sort_key name f) (EE.sort_key name g)
        then Some f else Some g
    end.
Proof.
  destruct l as [|g l]; cbn; [reflexivity|].
  destruct (EE.key_le _ _); reflexivity.
Qed.

Lemma first_sort_cons name f l :
  EE.first (EE.sort name (f :: l))
  = match EE.first (EE.sort name l) with
    | None => Some f
    | Some g =>
        if EE.key_le (EE.sort_key name f) (EE.sort_key name g)
        then Some f else Some g
    end.
Proof. unfold EE.sort. cbn [foldr]. apply first_insert_sorted. Qed.

Lemma sort_key_index f q :
  f !! "INDEX" = Some (EE.PNum q) -> EE.sort_key "INDEX" f = Some q.
Proof. unfold EE.sort_key. now intros ->. Qed.

(** Among rows of one tier the sort keeps the first one first. *)
Lemma first_sort_tier tier l :
  tier_rows tier l -> EE.first (EE.sort "INDEX" l) = EE.first l.
Proof.
  induction 1 as [|f l Hf Hl IH]; [reflexivity|].
  rewrite first_sort_cons, IH. destruct l as [|g l]; [reflexivity|].
  cbn. inversion Hl as [|? ? Hg _]; subst.
  rewrite (sort_key_index f tier Hf), (sort_key_index g tier Hg). cbn.
  replace (Qle_bool tier tier) with true; [reflexivity|].
  symmetry. apply Qle_bool_iff. lra.
Qed.

(** Rows of a higher tier in front do not change the first feature. *)
Lemma first_sort_behind hi lo m r rest :
  lo < hi -> tier_rows hi m -> tier_rows lo (r :: rest) ->
  EE.first (EE.sort "INDEX" (m ++ r :: rest)) = Some r.
Proof.
  intros Hlt Hm Hs. induction Hm as [|f m Hf Hm IH]; cbn [app].
  - now rewrite (first_sort_tier lo).
  - rewrite first_sort_cons, IH.
    inversion Hs as [|? ? Hr _]; subst.
    rewrite (sort_key_index f hi Hf), (sort_key_index r lo Hr). cbn.
    replace (Qle_bool hi lo) with false; [reflexivity|].
    symmetry. apply Qle_bool_gt. exact Hlt.
Qed.

(** ** Tcorr *)

Lemma tier_rows_filter tier name v coll :
  tier_rows tier coll ->
  tier_rows tier (EE.filterMetadata_equals name v coll).
Proof.
  unfold tier_rows, EE.filterMetadata_equals.
  induction 1 as [|f l Hf Hl IH]; cbn; [constructor|].
  destruct (match f !! name with
            | Some w => EE.prop_eqb w v
            | None => false
            end);
    [constructor; assumption | assumption].
Qed.

(** Every key of the monthly table has the default 0.978. *)
Lemma month_key_default k id :
  Image.month_coll_dict !! k = Some id ->
  Image.default_value_dict !! k = Some 0.978.
Proof.
  intros H. apply elem_of_list_to_map_2 in H.
  repeat (apply elem_of_cons in H as [H|H];
          [injection H as -> _; reflexivity|]).
  inversion H.
Qed.

(** A numeric source: the value and index 3, nothing else is read. *)
Lemma tcorr_numeric ee (self : Image.Fields) :
  _is_number (Image._tcorr_source self) = true ->
  Image._tcorr ee self = Ok (EE.Number ee (Image._tcorr_source self), Some 3).
Proof. unfold Image._tcorr. now intros ->. Qed.

Section tcorr_keyword.

Variable ee : EE.Catalog.
Variable self : Image.Fields.
Variables s tmax month_id wrs2_tile : string.
Variable month : Z.
Hypothesis Hsrc : Image._tcorr_source self = Str s.
Hypothesis Htmax : Image._tmax_source self = Str tmax.
Hypothesis Hmid : Image.month_coll_dict !! Py.upper tmax = Some month_id.
Hypothesis Hw : Image._wrs2_tile self = Some wrs2_tile.
Hypothesis Hm : Image._month self = Some month.
Hypothesis Hmonthly : tier_rows 1 (EE.FeatureCollection ee month_id).

Let default : EE.Feature :=
  <["INDEX" := EE.PNum 2]> (<["TCORR" := EE.PNum 0.978]> ∅).

Let monthly : list EE.Feature :=
  EE.filterMetadata_equals "MONTH" (EE.PNum (inject_Z month))
    (EE.filterMetadata_equals "WRS2_TILE" (EE.PStr wrs2_tile)
       (EE.FeatureCollection ee month_id)).

Let first_of (coll : list EE.Feature) : Py.res (option Q * option Q) :=
  Ok (EE.first coll ≫= Image.number_property "TCORR",
      EE.first coll ≫= Image.number_property "INDEX").

Lemma tcorr_month_unfold :
  Py.upper s = "MONTH" ->
  Image._tcorr ee self = first_of (EE.sort "INDEX" (default :: monthly)).
Proof.
  intros Hup. unfold Image._tcorr.
  rewrite Hsrc, (keyword_not_number s _ _ Hup eq_refl).
  rewrite Htmax. cbn [py_upper Py.bind].
  rewrite (month_key_default _ _ Hmid).
  rewrite bool_decide_eq_false_2 by discriminate.
  unfold getitem. rewrite (month_key_default _ _ Hmid), Hmid.
  cbn [Py.bind]. rewrite Hup.
  rewrite bool_decide_eq_false_2 by discriminate.
  rewrite bool_decide_eq_true_2 by reflexivity.
  cbn [Py.bind]. rewrite Hw, Hm. reflexivity.
Qed.

Lemma tcorr_scene_unfold scene_coll_id scene_id :
  Py.upper s = "SCENE" ->
  Image.scene_coll_dict !! Py.upper tmax = Some scene_coll_id ->
  Image._scene_id self = Some scene_id ->
  Image._tcorr ee self
  = first_of
      (EE.sort "INDEX"
         (default
          :: monthly
          ++ EE.filterMetadata_equals "SCENE_ID" (EE.PStr scene_id)
               (EE.FeatureCollection ee scene_coll_id))).
Proof.
  intros Hup Hsid Hs. unfold Image._tcorr.
  rewrite Hsrc, (keyword_not_number s _ _ Hup eq_refl).
  rewrite Htmax. cbn [py_upper Py.bind].
  rewrite (month_key_default _ _ Hmid).
  rewrite bool_decide_eq_false_2 by discriminate.
  unfold getitem. rewrite (month_key_default _ _ Hmid), Hmid, Hsid.
  cbn [Py.bind]. rewrite Hup.
  rewrite bool_decide_eq_true_2 by reflexivity.
  cbn [Py.bind]. rewrite Hw, Hm, Hs. reflexivity.
Qed.

Lemma monthly_tier : tier_rows 1 monthly.
Proof. subst monthly. now do 2 apply tier_rows_filter. Qed.

(** The default feature in front of rows of the tiers 0 and 1. *)
Lemma first_sort_default l g :
  EE.first (EE.sort "INDEX" l) = Some g ->
  (g !! "INDEX" = Some (EE.PNum 0) \/ g !! "INDEX" = Some (EE.PNum 1)) ->
  EE.first (EE.sort "INDEX" (default :: l)) = Some g.
Proof.
  intros Hl Hg. rewrite first_sort_cons, Hl.
  destruct Hg as [Hg|Hg]; rewrite (sort_key_index g _ Hg); reflexivity.
Qed.

Lemma first_monthly r rest :
  monthly = r :: rest ->
  EE.first (EE.sort "INDEX" (default :: monthly)) = Some r
  /\ r !! "INDEX" = Some (EE.PNum 1).
Proof.
  intros E. pose proof monthly_tier as Ht. rewrite E in *.
  assert (r !! "INDEX" = Some (EE.PNum 1)) as Hr by now inversion Ht.
  split; [|exact Hr].
  apply first_sort_default; [|now right].
  now rewrite (first_sort_tier 1).
Qed.

Lemma first_scene scene r rest :
  tier_rows 0 scene -> scene = r :: rest ->
  EE.first (EE.sort "INDEX" (default :: monthly ++ scene)) = Some r
  /\ r !! "INDEX" = Some (EE.PNum 0).
Proof.
  intros Ht ->.
  assert (r !! "INDEX" = Some (EE.PNum 0)) as Hr by now inversion Ht.
  split; [|exact Hr].
  apply first_sort_default; [|now left].
  apply (first_sort_behind 1 0); [reflexivity | apply monthly_tier | exact Ht].
Qed.

Lemma tcorr_of_row r (index : Q) :
  r !! "INDEX" = Some (EE.PNum index) ->
  first_of [r] = Ok (Image.number_property "TCORR" r, Some index).
Proof.
  intros Hr. unfold first_of. cbn. unfold Image.number_property at 2.
  now rewrite Hr.
Qed.

Lemma tcorr_month_result :
  Py.upper s = "MONTH" ->
  (forall r rest, monthly = r :: rest ->
     Image._tcorr ee self = Ok (Image.number_property "TCORR" r, Some 1))
  /\ (monthly = [] -> Image._tcorr ee self = Ok (Some 0.978, Some 2)).
Proof.
  intros Hup. rewrite (tcorr_month_unfold Hup). split.
  - intros r rest E. destruct (first_monthly r rest E) as [Hf Hr].
    unfold first_of. rewrite Hf. now apply tcorr_of_row.
  - intros ->. reflexivity.
Qed.

Lemma tcorr_scene_result scene_coll_id scene_id :
  Py.upper s = "SCENE" ->
  Image.scene_coll_dict !! Py.upper tmax = Some scene_coll_id ->
  Image._scene_id self = Some scene_id ->
  tier_rows 0 (EE.FeatureCollection ee scene_coll_id) ->
  let scene :=
    EE.filterMetadata_equals "SCENE_ID" (EE.PStr scene_id)
      (EE.FeatureCollection ee scene_coll_id) in
  (forall r rest, scene = r :: rest ->
     Image._tcorr ee self = Ok (Image.number_property "TCORR" r, Some 0))
  /\ (scene = [] -> forall r rest, monthly = r :: rest ->
       Image._tcorr ee self = Ok (Image.number_property "TCORR" r, Some 1))
  /\ (scene = [] -> monthly = [] ->
       Image._tcorr ee self = Ok (Some 0.978, Some 2)).
Proof.
  intros Hup Hsid Hs Ht scene.
  rewrite (tcorr_scene_unfold scene_coll_id scene_id Hup Hsid Hs).
  fold scene. split; [|split].
  - intros r rest E.
    destruct (first_scene scene r rest) as [Hf Hr];
      [now apply tier_rows_filter | exact E |].
    unfold first_of. rewrite Hf. now apply tcorr_of_row.
  - intros -> r rest E. rewrite app_nil_r.
    destruct (first_monthly r rest E) as [Hf Hr].
    unfold first_of. rewrite Hf. now apply tcorr_of_row.
  - intros -> ->. reflexivity.
Qed.

End tcorr_keyword.


Lemma example_tiers daily :
  tier_rows 1 (EE.FeatureCollection (example_catalog daily)
                 "projects/usgs-ssebop/tcorr/daymet_monthly")
  /\ tier_rows 0 (EE.FeatureCollection (example_catalog daily)
                    "projects/usgs-ssebop/tcorr/daymet_scene")
  /\ tier_rows 1 (EE.FeatureCollection (example_catalog daily)
                    "projects/usgs-ssebop/tcorr/gridmet_monthly")
  /\ tier_rows 0 (EE.FeatureCollection (example_catalog daily)
                    "projects/usgs-ssebop/tcorr/gridmet_scene").
Proof. repeat split; repeat constructor. Defined.



(** TOPOWX is a key of the default table and of neither lookup
    dictionary: the check of the tmax source passes and the lookup of
    the monthly collection raises KeyError. *)
Lemma tcorr_topowx_key_error ee :
  Image._tcorr ee (example_self (Num 20) (Str "SCENE") (Str "TOPOWX"))
  = Raise (KeyError "TOPOWX").
Proof. reflexivity. Qed.

(** ** Unrecognized keywords *)

Lemma dt_unrecognized ee (self : Image.Fields) s :
  Image._dt_source self = Str s ->
  _is_number (Str s) = false ->
  Py.upper s <> "DAYMET_MEDIAN_V0" ->
  Py.upper s <> "DAYMET_MEDIAN_V1" ->
  Image._dt ee self = Raise (SystemExit (InvalidDt (Str s))).
Proof.
  intros Hsrc Hnum H0 H1. unfold Image._dt. rewrite Hsrc, Hnum.
  cbn [py_upper Py.bind]. unfold Py.str_in.
  rewrite bool_decide_eq_false_2
    by (intros Hin; apply list_elem_of_singleton in Hin; contradiction).
  now rewrite bool_decide_eq_false_2.
Qed.

Lemma elev_unrecognized ee (self : Image.Fields) s :
  Image._elev_source self = Str s ->
  _is_number (Str s) = false ->
  Py.upper s ∉ ["ASSET"; "GTOPO"; "NED"; "SRTM"] ->
  Py.startswith (Py.lower s) "projects/" = false ->
  Py.startswith (Py.lower s) "users/" = false ->
  Image._elev ee self = Raise (SystemExit (UnsupportedElevSource (Str s))).
Proof.
  intros Hsrc Hnum Hkey Hp Hu. unfold Image._elev. rewrite Hsrc, Hnum.
  cbn [py_upper py_lower Py.bind].
  rewrite !bool_decide_eq_false_2
    by (intros E; apply Hkey; rewrite E; set_solver).
  now rewrite Hp, Hu.
Qed.

Lemma tmax_unrecognized ee date_today (self : Image.Fields) s :
  Image._tmax_source self = Str s ->
  _is_number (Str s) = false ->
  Py.upper s ∉ ["CIMIS"; "DAYMET"; "GRIDMET"; "CIMIS_MEDIAN_V1";
                "DAYMET_MEDIAN_V0"; "DAYMET_MEDIAN_V1"; "GRIDMET_MEDIAN_V1";
                "TOPOWX_MEDIAN_V0"] ->
  Image._tmax ee date_today self
  = Raise (SystemExit (UnsupportedTmaxSource (Str s))).
Proof.
  intros Hsrc Hnum Hkey. unfold Image._tmax. rewrite Hsrc, Hnum.
  cbn [py_upper Py.bind].
  rewrite !bool_decide_eq_false_2
    by (intros E; apply Hkey; rewrite E; set_solver).
  reflexivity.
Qed.

(** The tmax source is checked first when Tcorr is not a number. *)
Lemma tcorr_unrecognized_tmax ee (self : Image.Fields) tmax :
  _is_number (Image._tcorr_source self) = false ->
  Image._tmax_source self = Str tmax ->
  Image.default_value_dict !! Py.upper tmax = None ->
  Image._tcorr ee self
  = Raise (SystemExit
             (InvalidTmaxSource (Image._tcorr_source self) (Str tmax))).
Proof.
  intros Hnum Htmax Hkey. unfold Image._tcorr. rewrite Hnum, Htmax.
  cbn [py_upper Py.bind]. now rewrite bool_decide_eq_true_2.
Qed.

Lemma tcorr_unrecognized ee (self : Image.Fields) s :
  Image._tcorr_source self = Str s ->
  _is_number (Str s) = false ->
  Py.upper s <> "SCENE" ->
  Py.upper s <> "MONTH" ->
  Py.is_ok (Image._tcorr ee self) = false
  /\ forall tmax id,
       Image._tmax_source self = Str tmax ->
       Image.month_coll_dict !! Py.upper tmax = Some id ->
       Image._tcorr ee self
       = Raise (SystemExit (InvalidTcorrSource (Str s) (Str tmax))).
Proof.
  intros Hsrc Hnum Hs Hm. unfold Image._tcorr. rewrite Hsrc, Hnum.
  split.
  - destruct (Image._tmax_source self) as [q|tmax]; [reflexivity|].
    cbn [py_upper Py.bind]. case_bool_decide; [reflexivity|].
    unfold getitem.
    destruct (Image.default_value_dict !! Py.upper tmax); [|reflexivity].
    cbn [Py.bind].
    destruct (Image.month_coll_dict !! Py.upper tmax); [|reflexivity].
    cbn [Py.bind]. now rewrite !bool_decide_eq_false_2.
  - intros tmax id Htmax Hid. rewrite Htmax. cbn [py_upper Py.bind].
    rewrite (month_key_default _ _ Hid).
    rewrite bool_decide_eq_false_2 by discriminate.
    unfold getitem. rewrite (month_key_default _ _ Hid), Hid.
    cbn [Py.bind]. now rewrite !bool_decide_eq_false_2.
Qed.

(** When a resolver raises, [etf] raises and stores nothing. *)
Lemma etf_fn_raises ee date_today (self : Image.t) :
  Py.is_ok (Image._tcorr ee (fields self)) = false
  \/ Py.is_ok (Image._tmax ee date_today (fields self)) = false
  \/ Py.is_ok (Image._dt ee (fields self)) = false ->
  exists e, Image.etf_fn ee date_today self = Raise e.
Proof.
  unfold Image.etf_fn. intros H.
  destruct (Image._tcorr ee (fields self)) as [tc|e]; [|now exists e].
  destruct (Image._tmax ee date_today (fields self)) as [tm|e];
    [|now exists e].
  destruct (Image._dt ee (fields self)) as [d|e]; [|now exists e].
  destruct H as [H|[H|H]]; discriminate.
Qed.

Lemma etf_raises ee date_today (self : Image.t) :
  hasattr self "_lazy_etf" = false ->
  Py.is_ok (Image._tcorr ee (fields self)) = false
  \/ Py.is_ok (Image._tmax ee date_today (fields self)) = false
  \/ Py.is_ok (Image._dt ee (fields self)) = false ->
  exists e,
    Image.etf ee date_today self = (Raise e, called "etf" false self)
    /\ hasattr (Image.etf ee date_today self).2 "_lazy_etf" = false.
Proof.
  intros Hno H. destruct (etf_fn_raises ee date_today self H) as [e He].
  exists e. unfold Image.etf, lazy_property.
  change ("_lazy_" +:+ "etf") with "_lazy_etf".
  rewrite Hno, He. split; [reflexivity|exact Hno].
Qed.



(** ** dT *)

Lemma dt_numeric ee (self : Image.Fields) :
  _is_number (Image._dt_source self) = true ->
  Image._dt ee self = Ok (Image.constant_of ee (Image._dt_source self)).
Proof. unfold Image._dt. now intros ->. Qed.

Lemma dt_median_v0 ee (self : Image.Fields) s :
  Image._dt_source self = Str s ->
  Py.upper s = "DAYMET_MEDIAN_V0" ->
  Image._dt ee self
  = Ok (EE.map_pix (EE.clamp 6 25)
          <$> (Image.doy_filter self
                 (EE.ImageCollection ee
                    "projects/usgs-ssebop/dt/daymet_median_v0")
               ≫= EE.first)).
Proof.
  intros Hsrc Hup. unfold Image._dt.
  rewrite Hsrc, (keyword_not_number s _ _ Hup eq_refl).
  cbn [py_upper Py.bind]. rewrite Hup. reflexivity.
Qed.

Lemma dt_median_v1 ee (self : Image.Fields) s :
  Image._dt_source self = Str s ->
  Py.upper s = "DAYMET_MEDIAN_V1" ->
  Image._dt ee self
  = Ok (EE.map_pix (EE.clamp 6 25)
          <$> (Image.doy_filter self
                 (EE.ImageCollection ee
                    "projects/usgs-ssebop/dt/daymet_median_v1")
               ≫= EE.first)).
Proof.
  intros Hsrc Hup. unfold Image._dt.
  rewrite Hsrc, (keyword_not_number s _ _ Hup eq_refl).
  cbn [py_upper Py.bind]. rewrite Hup. reflexivity.
Qed.

(** The clamped first record, pixel by pixel. *)
Lemma clamped_first (self : Image.Fields) coll doy record rest :
  Image._doy self = Some doy ->
  EE.filter_day_of_year doy doy coll = record :: rest ->
  exists img,
    EE.map_pix (EE.clamp 6 25) <$> (Image.doy_filter self coll ≫= EE.first)
    = Some img
    /\ forall c,
         EE.pix img c = EE.clamp 6 25 (EE.pix record c)
         /\ forall v, EE.pix img c = Some v -> 6 <= v <= 25.
Proof.
  intros Hdoy Hcoll. unfold Image.doy_filter. rewrite Hdoy. cbn.
  rewrite Hcoll. cbn. eexists. split; [reflexivity|].
  intros c. cbn. split; [reflexivity|].
  intros v Hv. destruct (EE.pix record c) as [x|]; [|discriminate].
  cbn in Hv. injection Hv as <-. apply clampQ_bounds. lra.
Qed.



(** ** Numbers written as text *)



(** ** Tmax *)

(** [_date_to_time_0utc] is the start of the UTC day of the date. *)
Lemma date_to_time_0utc_day date :
  _date_to_time_0utc date = (date / EE.ms_per_day * EE.ms_per_day)%Z
  /\ (_date_to_time_0utc date <= date
      < EE.advance_day 1 (_date_to_time_0utc date))%Z.
Proof.
  unfold _date_to_time_0utc, EE.update_hms0, EE.advance_day, EE.ms_per_day.
  set (q := (date / 86400000)%Z).
  pose proof (Z.mod_pos_bound date 1000 eq_refl) as Hr.
  assert (((q * 86400000 + date mod 1000) / 1000 * 1000)%Z
          = (q * 86400000)%Z) as ->.
  { replace (q * 86400000 + date mod 1000)%Z
      with (q * 86400 * 1000 + date mod 1000)%Z by ring.
    rewrite Z.div_add_l by discriminate.
    rewrite (Z.div_small (date mod 1000) 1000) by exact Hr. ring. }
  split; [reflexivity|].
  pose proof (Z.div_mod date 86400000) as Hdm.
  pose proof (Z.mod_pos_bound date 86400000 eq_refl) as Hm.
  subst q. lia.
Qed.

Lemma mapM_select from to (coll : list EE.Image) :
  Forall (fun i => EE.band i = from) coll ->
  mapM (EE.select from to) coll = Some (map (EE.rename to) coll).
Proof.
  induction 1 as [|i l Hi Hl IH]; [reflexivity|].
  assert (EE.select from to i = Some (EE.rename to i)) as Hsel
    by (unfold EE.select; now rewrite bool_decide_eq_true_2).
  cbn [mapM map]. rewrite Hsel, IH. reflexivity.
Qed.

Lemma daily_or_median_daily date_today d rest median :
  Image.daily_or_median date_today (Some (d :: rest)) median
  = Some (EE.set "TMAX_VERSION" (EE.PStr date_today) d).
Proof. reflexivity. Qed.

Lemma daily_or_median_median date_today median :
  Image.daily_or_median date_today (Some []) median = median.
Proof. reflexivity. Qed.

Lemma median_image_first ee (self : Image.Fields) id version doy m rest :
  Image._doy self = Some doy ->
  EE.filter_day_of_year doy doy (EE.ImageCollection ee id) = m :: rest ->
  Image.median_image ee self id version
  = Some (EE.set "TMAX_VERSION" (EE.PStr version) m).
Proof.
  intros Hdoy Hm. unfold Image.median_image, Image.doy_filter.
  rewrite Hdoy. cbn. now rewrite Hm.
Qed.

(** Every image [_tmax] returns carries the source as it was given. *)
Lemma tmax_source_tag ee date_today (self : Image.Fields) img :
  Image._tmax ee date_today self = Ok (Some img) ->
  EE.get "TMAX_SOURCE" img
  = Some (EE.prop_of_value (Image._tmax_source self)).
Proof.
  unfold Image._tmax.
  match goal with
  | |- context [Py.bind ?X _] => destruct X as [[j|]|e]
  end; cbn; intros H; try discriminate.
  injection H as <-. unfold EE.get, EE.set. cbn. apply lookup_insert_eq.
Qed.

Section tmax_daily.

Variable ee : EE.Catalog.
Variable date_today : string.
Variable self : Image.Fields.
Variable s : string.
Variables start stop : Z.
Hypothesis Hsrc : Image._tmax_source self = Str s.
Hypothesis Hstart : Image._start_date self = Some start.
Hypothesis Hstop : Image._end_date self = Some stop.

Lemma tmax_daymet_unfold :
  Py.upper s = "DAYMET" ->
  Image._tmax ee date_today self
  = Ok (EE.set "TMAX_SOURCE" (EE.PStr s)
          <$> Image.daily_or_median date_today
                (map _c_to_k
                   <$> mapM (EE.select "tmax" "tmax")
                         (EE.filterDate start (EE.advance_day 1 stop)
                            (EE.ImageCollection ee "NASA/ORNL/DAYMET_V3")))
                (Image.median_image ee self
                   "projects/usgs-ssebop/tmax/daymet_median_v0"
                   "median_v0")).
Proof.
  intros Hup. unfold Image._tmax.
  rewrite Hsrc, (keyword_not_number s _ _ Hup eq_refl).
  cbn [py_upper Py.bind]. rewrite Hup, Hstart, Hstop. reflexivity.
Qed.

Lemma tmax_cimis_unfold :
  Py.upper s = "CIMIS" ->
  Image._tmax ee date_today self
  = Ok (EE.set "TMAX_SOURCE" (EE.PStr s)
          <$> Image.daily_or_median date_today
                (map _c_to_k
                   <$> mapM (EE.select "Tx" "tmax")
                         (EE.filterDate start stop
                            (EE.ImageCollection ee
                               "projects/climate-engine/cimis/daily")))
                (Image.median_image ee self
                   "projects/usgs-ssebop/tmax/cimis_median_v1"
                   "median_v1")).
Proof.
  intros Hup. unfold Image._tmax.
  rewrite Hsrc, (keyword_not_number s _ _ Hup eq_refl).
  cbn [py_upper Py.bind]. rewrite Hup, Hstart, Hstop. reflexivity.
Qed.

Lemma tmax_gridmet_unfold :
  Py.upper s = "GRIDMET" ->
  Image._tmax ee date_today self
  = Ok (EE.set "TMAX_SOURCE" (EE.PStr s)
          <$> Image.daily_or_median date_today
                (mapM (EE.select "tmmx" "tmax")
                   (EE.filterDate start stop
                      (EE.ImageCollection ee "IDAHO_EPSCOR/GRIDMET")))
                (Image.median_image ee self
                   "projects/usgs-ssebop/tmax/gridmet_median_v1"
                   "median_v1")).
Proof.
  intros Hup. unfold Image._tmax.
  rewrite Hsrc, (keyword_not_number s _ _ Hup eq_refl).
  cbn [py_upper Py.bind]. rewrite Hup, Hstart, Hstop. reflexivity.
Qed.

(** What a daily keyword gives, from its filtered daily collection
    [daily] with band [band], its conversion [convert] and its median
    dataset. *)
Lemma daily_then_median daily band convert median_id version :
  Image._tmax ee date_today self
  = Ok (EE.set "TMAX_SOURCE" (EE.PStr s)
          <$> Image.daily_or_median date_today
                (map convert <$> mapM (EE.select band "tmax") daily)
                (Image.median_image ee self median_id version)) ->
  (forall d rest,
     daily = d :: rest ->
     Forall (fun i => EE.band i = band) daily ->
     Image._tmax ee date_today self
     = Ok (Some (EE.set "TMAX_SOURCE" (EE.PStr s)
                   (EE.set "TMAX_VERSION" (EE.PStr date_today)
                      (convert (EE.rename "tmax" d))))))
  /\ (daily = [] ->
      Image._tmax ee date_today self
      = Ok (EE.set "TMAX_SOURCE" (EE.PStr s)
              <$> Image.median_image ee self median_id version)
      /\ forall doy m rest,
           Image._doy self = Some doy ->
           EE.filter_day_of_year doy doy (EE.ImageCollection ee median_id)
           = m :: rest ->
           Image._tmax ee date_today self
           = Ok (Some (EE.set "TMAX_SOURCE" (EE.PStr s)
                         (EE.set "TMAX_VERSION" (EE.PStr version) m)))).
Proof.
  intros Heq. split.
  - intros d rest -> Hband. rewrite Heq, (mapM_select _ _ _ Hband).
    reflexivity.
  - intros ->. rewrite Heq. cbn [mapM fmap option_fmap option_map mret
                                  option_ret map].
    rewrite daily_or_median_median. split; [reflexivity|].
    intros doy m rest Hdoy Hm.
    now rewrite (median_image_first ee self _ _ doy m rest Hdoy Hm).
Qed.

End tmax_daily.

(** C4 (amended). For the daily keywords: when the daily collection of
    the keyword, filtered to the UTC day of the scene for CIMIS and
    GRIDMET and to that day and the next one for DAYMET, is not empty,
    its first image is returned with TMAX_VERSION set to today's date;
    when it is empty, the first image of the median dataset for the day
    of year is returned with TMAX_VERSION set to the median version
    (median_v0 for DAYMET).  In every branch the image returned has
    TMAX_SOURCE equal to the source as given. *)
Theorem tmax_daily_fallback ee date_today (self : Image.Fields) :
  (forall image cfg date,
     Image.system_time_start image = Some date ->
     let init := fields (Image.__init__ (Some image) cfg) in
     let day := (date / EE.ms_per_day * EE.ms_per_day)%Z in
     Image._start_date init = Some day
     /\ Image._end_date init = Some (EE.advance_day 1 day)
     /\ (day <= date < EE.advance_day 1 day)%Z)
  /\ (forall img,
     Image._tmax ee date_today self = Ok (Some img) ->
     EE.get "TMAX_SOURCE" img
     = Some (EE.prop_of_value (Image._tmax_source self)))
  /\ (forall s start stop daily band convert median_id version,
        Image._tmax_source self = Str s ->
        Image._start_date self = Some start ->
        Image._end_date self = Some stop ->
        (Py.upper s = "DAYMET"
         /\ daily = EE.filterDate start (EE.advance_day 1 stop)
                      (EE.ImageCollection ee "NASA/ORNL/DAYMET_V3")
         /\ band = "tmax" /\ convert = _c_to_k
         /\ median_id = "projects/usgs-ssebop/tmax/daymet_median_v0"
         /\ version = "median_v0")
        \/ (Py.upper s = "CIMIS"
            /\ daily = EE.filterDate start stop
                         (EE.ImageCollection ee
                            "projects/climate-engine/cimis/daily")
            /\ band = "Tx" /\ convert = _c_to_k
            /\ median_id = "projects/usgs-ssebop/tmax/cimis_median_v1"
            /\ version = "median_v1")
        \/ (Py.upper s = "GRIDMET"
            /\ daily = EE.filterDate start stop
                         (EE.ImageCollection ee "IDAHO_EPSCOR/GRIDMET")
            /\ band = "tmmx" /\ convert = (fun i => i)
            /\ median_id = "projects/usgs-ssebop/tmax/gridmet_median_v1"
            /\ version = "median_v1") ->
        (forall d rest,
           daily = d :: rest ->
           Forall (fun i => EE.band i = band) daily ->
           Image._tmax ee date_today self
           = Ok (Some (EE.set "TMAX_SOURCE" (EE.PStr s)
                         (EE.set "TMAX_VERSION" (EE.PStr date_today)
                            (convert (EE.rename "tmax" d))))))
        /\ (daily = [] ->
            Image._tmax ee date_today self
            = Ok (EE.set "TMAX_SOURCE" (EE.PStr s)
                    <$> Image.median_image ee self median_id version)
            /\ forall doy m rest,
                 Image._doy self = Some doy ->
                 EE.filter_day_of_year doy doy
                   (EE.ImageCollection ee median_id) = m :: rest ->
                 Image._tmax ee date_today self
                 = Ok (Some (EE.set "TMAX_SOURCE" (EE.PStr s)
                               (EE.set "TMAX_VERSION" (EE.PStr version)
                                  m))))).
Proof.
  split.
  { intros image cfg date Hdate init day. subst init. cbn. rewrite Hdate.
    cbn. destruct (date_to_time_0utc_day date) as [-> Hwin].
    repeat split; apply Hwin. }
  split; [apply tmax_source_tag|].
  intros s start stop daily band convert median_id version
    Hsrc Hstart Hstop Hkey.
  apply daily_then_median.
  destruct Hkey as [(Hup & -> & -> & -> & -> & ->)
                   |[(Hup & -> & -> & -> & -> & ->)
                    |(Hup & -> & -> & -> & -> & ->)]].
  - now apply tmax_daymet_unfold.
  - now apply tmax_cimis_unfold.
  - rewrite (tmax_gridmet_unfold ee date_today self s start stop)
      by assumption.
    destruct (mapM _ _) as [l|]; [|reflexivity].
    cbn [fmap option_fmap option_map]. now rewrite map_id.
Qed.

(** The example scene of 2015-08-05 with today's date "2026-11-04": a
    DAYMET image of 26.85 C for the day gives 300 K tagged with today's
    date; without it the median of 301 K tagged median_v0 is used. *)
Lemma tmax_daily_fallback_witness :
  let self := example_self (Num 20) (Num 0.95) (Str "DAYMET") in
  (exists img,
     Image._tmax example_ee "2026-11-04" self = Ok (Some img)
     /\ EE.get "TMAX_VERSION" img = Some (EE.PStr "2026-11-04")
     /\ EE.get "TMAX_SOURCE" img = Some (EE.PStr "DAYMET")
     /\ EE.pix img (0, 0)%Z = Some (26.85 + 273.15))
  /\ (exists img,
        Image._tmax (example_catalog None) "2026-11-04" self = Ok (Some img)
        /\ EE.get "TMAX_VERSION" img = Some (EE.PStr "median_v0")
        /\ EE.get "TMAX_SOURCE" img = Some (EE.PStr "DAYMET")
        /\ EE.pix img (0, 0)%Z = Some 301).
Proof.
  intros self. split.
  - eexists. split.
    + refine (proj1 (proj2 (proj2 (tmax_daily_fallback example_ee
                "2026-11-04" self))
                "DAYMET" day_20150805 (EE.advance_day 1 day_20150805)
                _ "tmax" _c_to_k _ _ eq_refl eq_refl eq_refl
                (or_introl (conj eq_refl (conj eq_refl (conj eq_refl
                   (conj eq_refl (conj eq_refl eq_refl)))))))
                (dated_image "tmax" 26.85 day_20150805) [] eq_refl _).
      repeat constructor.
    + repeat split; reflexivity.
  - eexists. split.
    + refine (proj2 (proj2 (proj2 (proj2 (tmax_daily_fallback
                (example_catalog None) "2026-11-04" self))
                "DAYMET" day_20150805 (EE.advance_day 1 day_20150805)
                _ "tmax" _c_to_k _ _ eq_refl eq_refl eq_refl
                (or_introl (conj eq_refl (conj eq_refl (conj eq_refl
                   (conj eq_refl (conj eq_refl eq_refl)))))))
                eq_refl)
                217%Z (dated_image "tmax" 301 day_20150805) []
                eq_refl eq_refl).
    + repeat split; reflexivity.
Defined.

(** C4 as stated fails for DAYMET: with no DAYMET image in the UTC day
    window of the scene and one dated the next day, the claim gives the
    median tagged median_v0 and the resolver returns the image of the
    next day tagged with today's date. *)
Lemma tmax_daymet_reads_the_next_day :
  let ee := example_catalog (Some (EE.advance_day 1 day_20150805)) in
  let self := example_self (Num 20) (Num 0.95) (Str "DAYMET") in
  Image._start_date self = Some day_20150805
  /\ Image._end_date self = Some (EE.advance_day 1 day_20150805)
  /\ EE.filterDate day_20150805 (EE.advance_day 1 day_20150805)
       (EE.ImageCollection ee "NASA/ORNL/DAYMET_V3") = []
  /\ exists img,
       Image._tmax ee "2026-11-04" self = Ok (Some img)
       /\ EE.get "TMAX_VERSION" img = Some (EE.PStr "2026-11-04")
       /\ EE.get "TMAX_VERSION" img <> Some (EE.PStr "median_v0")
       /\ EE.pix img (0, 0)%Z = Some (26.85 + 273.15).
Proof.
  intros ee self. repeat split.
  eexists. split; [reflexivity|]. repeat split. discriminate.
Qed.

(** ** Scene identity *)

Lemma append_assoc (a b c : string) : (a +:+ b) +:+ c = a +:+ (b +:+ c).
Proof.
  induction a as [|x a IH]; [reflexivity|].
  change (String x ((a +:+ b) +:+ c) = String x (a +:+ (b +:+ c))).
  now f_equal.
Qed.

Lemma split_on_nonempty sep s : EE.split_on sep s <> [].
Proof.
  destruct s as [|c r]; cbn; [discriminate|].
  case_bool_decide; [discriminate|].
  destruct (EE.split_on sep r); discriminate.
Qed.

(** Joining the tokens gives the string back. *)
Lemma join_split s : join "_" (EE.split_on "_" s) = s.
Proof.
  induction s as [|c r IH]; [reflexivity|].
  cbn [EE.split_on]. pose proof (split_on_nonempty "_" r) as Hne.
  destruct (EE.split_on "_" r) as [|t ts]; [contradiction|].
  case_bool_decide as Hc.
  - subst c. change (join "_" ("" :: t :: ts))
      with ("" +:+ "_" +:+ join "_" (t :: ts)).
    now rewrite IH.
  - rewrite <- IH. destruct ts; reflexivity.
Qed.

Lemma join_last3 pre a b c :
  exists prefix,
    join "_" (pre ++ [a; b; c])
    = prefix +:+ ((((a +:+ "_") +:+ b) +:+ "_") +:+ c).
Proof.
  induction pre as [|x pre [prefix IH]].
  - exists "". cbn. now rewrite !append_assoc.
  - exists (x +:+ "_" +:+ prefix).
    change (join "_" ((x :: pre) ++ [a; b; c]))
      with (match (pre ++ [a; b; c])%list with
            | [] => x
            | _ => x +:+ "_" +:+ join "_" (pre ++ [a; b; c])
            end).
    destruct (pre ++ [a; b; c])%list eqn:E.
    + now destruct pre.
    + rewrite IH. now rewrite !append_assoc.
Qed.

Lemma scene_id_of_tokens index pre a b c :
  EE.split_on "_" index = (pre ++ [a; b; c])%list ->
  Image.scene_id_of index = Some ((((a +:+ "_") +:+ b) +:+ "_") +:+ c).
Proof.
  intros H. unfold Image.scene_id_of, EE.slice_last. rewrite H.
  rewrite length_app. cbn [length].
  replace (length pre + 3 - 3)%nat with (length pre) by lia.
  rewrite drop_app_length. reflexivity.
Qed.

Lemma scene_id_of_short index :
  (length (EE.split_on "_" index) < 3)%nat ->
  Image.scene_id_of index = None.
Proof.
  intros H. unfold Image.scene_id_of, EE.slice_last.
  replace (length (EE.split_on "_" index) - 3)%nat with 0%nat by lia.
  cbn [drop].
  destruct (EE.split_on "_" index) as [|a [|b [|c l]]]; try reflexivity.
  cbn in H. lia.
Qed.

(** A list of three or more elements ends with three of them. *)
Lemma last_three {A} (l : list A) :
  (3 <= length l)%nat -> exists pre a b c, l = (pre ++ [a; b; c])%list.
Proof.
  intros H. exists (take (length l - 3) l).
  pose proof (take_drop (length l - 3) l) as Htd.
  assert (length (drop (length l - 3) l) = 3%nat) as Hlen
    by (rewrite length_drop; lia).
  destruct (drop (length l - 3) l) as [|a [|b [|c [|d r]]]];
    try discriminate Hlen.
  exists a, b, c. now rewrite Htd.
Qed.

(** The accessor of a lazy property leaves the fields as they are. *)
Lemma lazy_property_fields {F V} name (fn : Object F V -> Py.res V) self :
  fields (lazy_property name fn self).2 = fields self.
Proof.
  unfold lazy_property. destruct (hasattr self _); [reflexivity|].
  destruct (fn self); reflexivity.
Qed.

(** C5. The scene id is the last three "_"-separated tokens of the index
    string joined by "_" (it is computed exactly when there are three
    tokens, and is then the end of the index string); the WRS2 tile is
    "p", characters 5 to 7 of the scene id, "r", characters 8 to 10.
    [__init__] stores both, and reading [etf] changes no field. *)
Theorem scene_identity (index : string) :
  (forall scene_id,
     Image.scene_id_of index = Some scene_id <->
     exists pre a b c,
       EE.split_on "_" index = (pre ++ [a; b; c])%list
       /\ scene_id = (((a +:+ "_") +:+ b) +:+ "_") +:+ c)
  /\ (forall scene_id,
        Image.scene_id_of index = Some scene_id ->
        exists prefix, index = prefix +:+ scene_id)
  /\ (forall scene_id,
        Image.wrs2_tile_of scene_id
        = "p" +:+ String.substring 5 3 scene_id
          +:+ "r" +:+ String.substring 8 3 scene_id)
  /\ (forall image cfg,
        Image.system_index image = Some index ->
        let self := fields (Image.__init__ (Some image) cfg) in
        Image._scene_id self = Image.scene_id_of index
        /\ Image._wrs2_tile self
           = Image.wrs2_tile_of <$> Image.scene_id_of index)
  /\ (forall ee date_today (self : Image.t),
        fields (Image.etf ee date_today self).2 = fields self).
Proof.
  assert (forall scene_id,
            Image.scene_id_of index = Some scene_id ->
            exists pre a b c,
              EE.split_on "_" index = (pre ++ [a; b; c])%list
              /\ scene_id = (((a +:+ "_") +:+ b) +:+ "_") +:+ c) as Hsome.
  { intros scene_id H.
    destruct (le_lt_dec 3 (length (EE.split_on "_" index))) as [Hle|Hlt].
    - destruct (last_three _ Hle) as (pre & a & b & c & E).
      exists pre, a, b, c. split; [exact E|].
      rewrite (scene_id_of_tokens index pre a b c E) in H. congruence.
    - rewrite (scene_id_of_short index Hlt) in H. discriminate. }
  split.
  { intros scene_id. split; [apply Hsome|].
    intros (pre & a & b & c & E & ->). now apply (scene_id_of_tokens index pre). }
  split.
  { intros scene_id H. destruct (Hsome scene_id H) as (pre & a & b & c & E & ->).
    destruct (join_last3 pre a b c) as [prefix Hj].
    exists prefix. now rewrite <- Hj, <- E, join_split. }
  split.
  { intros scene_id. unfold Image.wrs2_tile_of, EE.str_slice.
    now rewrite !append_assoc. }
  split.
  { intros image cfg Hi self. subst self. cbn. now rewrite Hi. }
  intros ee date_today self. apply lazy_property_fields.
Qed.

(** "LC08_043033_20150805" gives itself and the tile "p043r033"; the
    index of a merged collection keeps its last three tokens. *)
Lemma scene_identity_witness :
  Image.scene_id_of "LC08_043033_20150805" = Some "LC08_043033_20150805"
  /\ Image.wrs2_tile_of "LC08_043033_20150805" = "p043r033"
  /\ Image.scene_id_of "1_2_LC08_043033_20150805"
     = Some "LC08_043033_20150805"
  /\ Image._wrs2_tile (example_self (Num 20) (Str "SCENE") (Str "DAYMET"))
     = Some "p043r033".
Proof.
  split.
  { apply (proj2 (proj1 (scene_identity "LC08_043033_20150805")
                    "LC08_043033_20150805")).
    exists [], "LC08", "043033", "20150805". split; reflexivity. }
  split; [reflexivity|].
  split.
  { apply (proj2 (proj1 (scene_identity "1_2_LC08_043033_20150805")
                    "LC08_043033_20150805")).
    exists ["1"; "2"], "LC08", "043033", "20150805". split; reflexivity. }
  exact (proj2 (proj1 (proj2 (proj2 (proj2
           (scene_identity "LC08_043033_20150805")))) example_image
           (example_config (Num 20) (Str "SCENE") (Str "DAYMET")) eq_refl)).
Defined.

(** ** The collection builder *)

Lemma lower_ascii_idempotent c :
  Py.lower_ascii (Py.lower_ascii c) = Py.lower_ascii c.
Proof. destruct c as [[] [] [] [] [] [] [] []]; reflexivity. Qed.

Lemma lower_idempotent s : Py.lower (Py.lower s) = Py.lower s.
Proof.
  induction s as [|c r IH]; [reflexivity|].
  change (String (Py.lower_ascii (Py.lower_ascii c))
            (Py.lower (Py.lower r))
          = String (Py.lower_ascii c) (Py.lower r)).
  now rewrite lower_ascii_idempotent, IH.
Qed.

(** With the default sources, the Python code of [compute] returns for
    every image: nothing is raised when [map] calls it. *)
Lemma compute_returns ee date_today image :
  exists handle, compute ee date_today "etf" image = Ok handle.
Proof.
  unfold compute, getattr_Image.
  rewrite bool_decide_eq_true_2 by reflexivity.
  unfold Image.etf, lazy_property.
  change ("_lazy_" +:+ "etf") with "_lazy_etf".
  assert (hasattr (Image.from_landsat_c1_toa ee image Image.defaults)
            "_lazy_etf" = false) as -> by reflexivity.
  assert (exists v,
            Image.etf_fn ee date_today
              (Image.from_landsat_c1_toa ee image Image.defaults) = Ok v)
    as [v ->].
  { unfold Image.etf_fn.
    assert (exists tc,
              Image._tcorr ee
                (fields (Image.from_landsat_c1_toa ee image Image.defaults))
              = Ok tc) as [tc ->] by (eexists; reflexivity).
    assert (exists tm,
              Image._tmax ee date_today
                (fields (Image.from_landsat_c1_toa ee image Image.defaults))
              = Ok tm) as [tm ->] by (eexists; reflexivity).
    assert (exists d,
              Image._dt ee
                (fields (Image.from_landsat_c1_toa ee image Image.defaults))
              = Ok d) as [d ->] by (eexists; reflexivity).
    eexists. reflexivity. }
  eexists. cbn. unfold getattr. cbn. rewrite lookup_insert_eq. reflexivity.
Qed.

Lemma map_scenes_returns ee date_today coll :
  exists handle,
    map_scenes (compute ee date_today "etf") coll = Ok handle.
Proof.
  unfold map_scenes.
  destruct (compute_returns ee date_today None) as [h ->].
  eexists. reflexivity.
Qed.

Section build.

Variable ee : EE.Catalog.
Variable date_today : string.
Variables start_date end_date : Z.
Variable geometry : list EE.Coord.

(** The loop stops at the first identifier that is not supported,
    whatever was merged before. *)
Lemma build_stops good bad rest variable_coll :
  Forall (fun id => id ∈ landsat_c1_toa_collections) good ->
  bad ∉ landsat_c1_toa_collections ->
  build_variable_coll ee date_today "etf" start_date end_date geometry
    (good ++ bad :: rest) variable_coll
  = Raise (ValueError ("unsupported collection: " +:+ bad)).
Proof.
  intros Hgood Hbad. revert variable_coll.
  induction Hgood as [|id good Hid Hgood IH]; intros variable_coll.
  - cbn [app build_variable_coll]. unfold Py.str_in.
    now rewrite bool_decide_eq_false_2.
  - cbn [app build_variable_coll]. unfold Py.str_in.
    rewrite bool_decide_eq_true_2 by exact Hid.
    destruct (map_scenes_returns ee date_today
                (EE.filterBounds geometry
                   (EE.scene_filterDate start_date end_date
                      (EE.SceneCollection ee id)))) as [h ->].
    cbn [Py.bind]. apply IH.
Qed.

Lemma build_returns collections variable_coll :
  Forall (fun id => id ∈ landsat_c1_toa_collections) collections ->
  exists handle,
    build_variable_coll ee date_today "etf" start_date end_date geometry
      collections variable_coll = Ok handle.
Proof.
  intros H. revert variable_coll.
  induction H as [|id l Hid Hl IH]; intros variable_coll.
  - eexists. reflexivity.
  - cbn [build_variable_coll]. unfold Py.str_in.
    rewrite bool_decide_eq_true_2 by exact Hid.
    destruct (map_scenes_returns ee date_today
                (EE.filterBounds geometry
                   (EE.scene_filterDate start_date end_date
                      (EE.SceneCollection ee id)))) as [h ->].
    cbn [Py.bind]. apply IH.
Qed.

End build.

(** C7. A variable other than "etf" (compared in lower case) raises the
    unsupported-variable error; with "etf", the first collection
    identifier outside the Landsat Collection 1 TOA list raises the
    unsupported-collection error, whatever the catalogue holds: the call
    returns no collection, so no scene is ever evaluated.  With only
    supported identifiers the call returns. *)
Theorem collection_errors ee date_today daily_et (variable : string)
    (collections : list string) start_date end_date t_interval geometry :
  (Py.lower variable <> "etf" ->
   collection ee date_today daily_et variable collections
     start_date end_date t_interval geometry
   = Raise (ValueError ("unsupported variable: " +:+ Py.lower variable)))
  /\ (Py.lower variable = "etf" ->
      forall good bad rest,
        collections = (good ++ bad :: rest)%list ->
        Forall (fun id => id ∈ landsat_c1_toa_collections) good ->
        bad ∉ landsat_c1_toa_collections ->
        collection ee date_today daily_et variable collections
          start_date end_date t_interval geometry
        = Raise (ValueError ("unsupported collection: " +:+ bad)))
  /\ (Py.lower variable = "etf" ->
      Forall (fun id => id ∈ landsat_c1_toa_collections) collections ->
      Py.is_ok (collection ee date_today daily_et variable collections
                  start_date end_date t_interval geometry) = true).
Proof.
  unfold collection. cbn zeta. rewrite lower_idempotent.
  split; [|split].
  - intros Hne. destruct (Py.str_in (Py.lower variable) dir_Image);
      [|reflexivity].
    cbn [negb]. unfold Py.str_in.
    rewrite bool_decide_eq_false_2; [reflexivity|].
    intros Hin. apply list_elem_of_singleton in Hin. contradiction.
  - intros -> good bad rest -> Hgood Hbad.
    cbn [negb]. change (Py.str_in "etf" dir_Image) with true.
    change (Py.str_in "etf" ["etf"]) with true. cbn [negb].
    now rewrite build_stops.
  - intros -> Hall.
    change (Py.str_in "etf" dir_Image) with true.
    change (Py.str_in "etf" ["etf"]) with true. cbn [negb].
    destruct (build_returns ee date_today start_date end_date geometry
                collections (Some []) Hall) as [h ->].
    reflexivity.
Qed.

(** collection("ETF", ["UNSUPPORTED_SENSOR"], ...) and
    collection("NDVI", ...) raise; an unsupported identifier after a
    supported one raises as well. *)
Lemma collection_errors_witness :
  let call variable collections :=
    collection example_ee "2026-11-04"
      (fun _ sparse _ _ => sparse) variable collections
      day_20150805 (EE.advance_day 32 day_20150805) "daily" [(0, 0)%Z] in
  call "ETF" ["UNSUPPORTED_SENSOR"]
  = Raise (ValueError "unsupported collection: UNSUPPORTED_SENSOR")
  /\ call "NDVI" ["LANDSAT/LC08/C01/T1_TOA"]
     = Raise (ValueError "unsupported variable: ndvi")
  /\ call "etf" ["LANDSAT/LC08/C01/T1_TOA"; "UNSUPPORTED_SENSOR"]
     = Raise (ValueError "unsupported collection: UNSUPPORTED_SENSOR")
  /\ Py.is_ok (call "Etf" ["LANDSAT/LC08/C01/T1_TOA"]) = true.
Proof.
  intros call. subst call. cbn beta.
  split.
  { apply (proj1 (proj2 (collection_errors example_ee
             "2026-11-04" (fun _ sparse _ _ => sparse) "ETF"
             ["UNSUPPORTED_SENSOR"] day_20150805
             (EE.advance_day 32 day_20150805) "daily" [(0, 0)%Z]))
             eq_refl [] "UNSUPPORTED_SENSOR" [] eq_refl);
      [constructor|].
    refine (bool_decide_unpack _ _). vm_compute. exact I. }
  split.
  { apply (proj1 (collection_errors example_ee
             "2026-11-04" (fun _ sparse _ _ => sparse) "NDVI"
             ["LANDSAT/LC08/C01/T1_TOA"] day_20150805
             (EE.advance_day 32 day_20150805) "daily" [(0, 0)%Z])).
    cbv. discriminate. }
  split.
  { apply (proj1 (proj2 (collection_errors example_ee
             "2026-11-04" (fun _ sparse _ _ => sparse) "etf"
             ["LANDSAT/LC08/C01/T1_TOA"; "UNSUPPORTED_SENSOR"] day_20150805
             (EE.advance_day 32 day_20150805) "daily" [(0, 0)%Z]))
             eq_refl ["LANDSAT/LC08/C01/T1_TOA"] "UNSUPPORTED_SENSOR" []
             eq_refl).
    - constructor; [|constructor].
      refine (bool_decide_unpack _ _). vm_compute. exact I.
    - refine (bool_decide_unpack _ _). vm_compute. exact I. }
  apply (proj2 (proj2 (collection_errors example_ee
           "2026-11-04" (fun _ sparse _ _ => sparse) "Etf"
           ["LANDSAT/LC08/C01/T1_TOA"] day_20150805
           (EE.advance_day 32 day_20150805) "daily" [(0, 0)%Z])) eq_refl).
  constructor; [|constructor].
  refine (bool_decide_unpack _ _). vm_compute. exact I.
Defined.

(** ** Memoization *)

Section lazy.

Context {F V : Type}.
Variable name : string.

Lemma lazy_property_hit (fn : Object F V -> Py.res V) self v :
  dict self !! ("_lazy_" +:+ name) = Some v ->
  lazy_property name fn self = (Ok v, self).
Proof.
  intros H. unfold lazy_property, hasattr, getattr.
  rewrite bool_decide_eq_true_2 by (rewrite H; eauto). now rewrite H.
Qed.

Lemma lazy_property_miss (fn : Object F V -> Py.res V) self :
  dict self !! ("_lazy_" +:+ name) = None ->
  lazy_property name fn self
  = match fn self with
    | Ok v =>
        (Ok v, setattr (called name true self) ("_lazy_" +:+ name) v)
    | Raise e => (Raise e, called name false self)
    end.
Proof.
  intros H. unfold lazy_property, hasattr.
  rewrite bool_decide_eq_false_2 by (rewrite H; intros [? ?]; discriminate).
  destruct (fn self) as [v|e]; [|reflexivity].
  unfold getattr, setattr. cbn. now rewrite lookup_insert_eq.
Qed.

(** A value that was returned is stored. *)
Lemma lazy_property_stored (fn : Object F V -> Py.res V) self v self' :
  lazy_property name fn self = (Ok v, self') ->
  dict self' !! ("_lazy_" +:+ name) = Some v.
Proof.
  destruct (dict self !! ("_lazy_" +:+ name)) as [w|] eqn:E.
  - rewrite (lazy_property_hit fn self w E). intros H.
    injection H as <- <-. exact E.
  - rewrite (lazy_property_miss fn self E).
    destruct (fn self) as [w|e]; intros H; [|discriminate].
    injection H as <- <-. cbn. apply lookup_insert_eq.
Qed.

End lazy.

Lemma read_etf_stored envs (self : Image.t) v :
  dict self !! "_lazy_etf" = Some v ->
  read_etf envs self = (replicate (length envs) (Ok v), self).
Proof.
  intros H. induction envs as [|env rest IH]; [reflexivity|].
  cbn [read_etf length replicate]. unfold Image.etf.
  rewrite (lazy_property_hit "etf" _ self v H). cbn [fst snd].
  now rewrite IH.
Qed.

Lemma read_etf_fresh envs (self : Image.t) :
  dict self !! "_lazy_etf" = None ->
  returned_calls "etf" self = 0%nat ->
  (returned_calls "etf" (read_etf envs self).2 <= 1)%nat
  /\ forall v w,
       Ok v ∈ (read_etf envs self).1 -> Ok w ∈ (read_etf envs self).1 ->
       v = w.
Proof.
  revert self. induction envs as [|env rest IH]; intros self Hnone Hzero.
  { cbn. split; [lia|]. intros v w Hv. inversion Hv. }
  cbn [read_etf fst snd]. unfold Image.etf.
  rewrite (lazy_property_miss "etf" _ self Hnone).
  destruct (Image.etf_fn env.1 env.2 self) as [x|e]; cbn [fst snd].
  - rewrite (read_etf_stored rest _ x) by apply lookup_insert_eq.
    cbn [fst snd]. split.
    + unfold returned_calls in *. cbn [calls setattr called List.filter].
      rewrite bool_decide_eq_true_2 by reflexivity.
      cbn [length]. rewrite Hzero. lia.
    + assert (forall u, Ok u ∈ Ok x :: replicate (length rest) (Ok x) ->
                        u = x) as Hall.
      { intros u Hu. apply elem_of_cons in Hu as [Hu|Hu].
        - now injection Hu.
        - apply elem_of_replicate in Hu as [Hu _]. now injection Hu. }
      intros v w Hv Hw. now rewrite (Hall v Hv), (Hall w Hw).
  - destruct (IH (called "etf" false self) Hnone) as [Hcount Hsame].
    { unfold returned_calls in *. cbn [calls called List.filter].
      rewrite bool_decide_eq_false_2 by discriminate. exact Hzero. }
    split; [exact Hcount|].
    intros v w Hv Hw.
    apply elem_of_cons in Hv as [Hv|Hv]; [discriminate|].
    apply elem_of_cons in Hw as [Hw|Hw]; [discriminate|].
    now apply Hsame.
Qed.

(** C9. [etf] is computed at most once for an instance: the first read
    that returns stores its value; every later read, in whatever
    environment, returns the stored value and leaves the instance as it
    is, the record of calls included, so that nothing is resolved again.
    Over any sequence of reads of a new instance the body runs to its
    end at most once and all the values returned are the same. *)
Theorem etf_memoized :
  (forall ee date_today (self : Image.t) v self',
     Image.etf ee date_today self = (Ok v, self') ->
     getattr self' "_lazy_etf" = Ok v
     /\ forall ee' date_today',
          Image.etf ee' date_today' self' = (Ok v, self'))
  /\ (forall ee date_today image cfg v,
        Image.etf_fn ee date_today (Image.__init__ image cfg) = Ok v ->
        exists self',
          Image.etf ee date_today (Image.__init__ image cfg) = (Ok v, self')
          /\ calls self' = [("etf", true)])
  /\ (forall image cfg envs,
        let reads := read_etf envs (Image.__init__ image cfg) in
        (returned_calls "etf" reads.2 <= 1)%nat
        /\ forall v w, Ok v ∈ reads.1 -> Ok w ∈ reads.1 -> v = w).
Proof.
  split; [|split].
  - intros ee date_today self v self' H.
    pose proof (lazy_property_stored "etf" _ self v self' H) as Hs.
    change ("_lazy_" +:+ "etf") with "_lazy_etf" in Hs.
    split; [unfold getattr; now rewrite Hs|].
    intros ee' date_today'. now apply (lazy_property_hit "etf").
  - intros ee date_today image cfg v H. eexists. split.
    + unfold Image.etf. rewrite (lazy_property_miss "etf") by reflexivity.
      rewrite H. reflexivity.
    + reflexivity.
  - intros image cfg envs. apply read_etf_fresh; reflexivity.
Qed.

(** With numeric sources the first read of the example instance returns
    an image; a second read, in another catalogue and on another day,
    returns the same image and changes nothing. *)
Lemma etf_memoized_witness :
  let self := example_object (Num 20) (Num 0.95) (Num 300) in
  exists v self',
    Image.etf example_ee "2026-11-04" self = (Ok v, self')
    /\ Image.etf (example_catalog None) "2026-11-05" self' = (Ok v, self')
    /\ calls self' = [("etf", true)].
Proof.
  intros self.
  destruct (proj1 (proj2 etf_memoized) example_ee "2026-11-04"
              (Some example_image)
              (example_config (Num 20) (Num 0.95) (Num 300)) _ eq_refl)
    as (self' & Hfirst & Hcalls).
  eexists. exists self'. split; [exact Hfirst|].
  split; [|exact Hcalls].
  exact (proj2 (proj1 etf_memoized _ _ _ _ _ Hfirst)
           (example_catalog None) "2026-11-05").
Defined.

(** * Further properties of the module *)

(** ** [_date_to_time_0utc] *)

(** X1. [_date_to_time_0utc] gives the midnight (UTC) of the day of its
    argument: a multiple of 86 400 000 ms, at or before the date and
    less than a day before it, for dates before the epoch too; the
    milliseconds that [update] leaves are gone, and applying it again
    changes nothing. *)
Theorem date_to_time_0utc_midnight (date : Z) :
  (_date_to_time_0utc date mod EE.ms_per_day = 0)%Z
  /\ (_date_to_time_0utc date <= date
      < _date_to_time_0utc date + EE.ms_per_day)%Z
  /\ (_date_to_time_0utc date mod 1000 = 0)%Z
  /\ _date_to_time_0utc (_date_to_time_0utc date) = _date_to_time_0utc date
  /\ (forall other,
        (_date_to_time_0utc date <= other
         < _date_to_time_0utc date + EE.ms_per_day)%Z ->
        _date_to_time_0utc other = _date_to_time_0utc date).
Proof.
  destruct (date_to_time_0utc_day date) as [Heq Hwin].
  unfold EE.advance_day in Hwin.
  assert (forall q, (q * 86400000 / 86400000 = q)%Z) as Hdiv
    by (intros q; apply Z.div_mul; discriminate).
  assert (forall other q,
            (q * 86400000 <= other < q * 86400000 + 86400000)%Z ->
            (other / 86400000 = q)%Z) as Huniq.
  { intros other q H. symmetry.
    apply (Z.div_unique other 86400000 q (other - q * 86400000)); lia. }
  split; [rewrite Heq; apply Z.mod_mul; discriminate|].
  split; [lia|].
  split.
  { rewrite Heq. unfold EE.ms_per_day.
    replace (date / 86400000 * 86400000)%Z
      with (date / 86400000 * 86400 * 1000)%Z by ring.
    apply Z.mod_mul. discriminate. }
  split.
  { destruct (date_to_time_0utc_day (_date_to_time_0utc date)) as [-> _].
    rewrite Heq. unfold EE.ms_per_day. now rewrite Hdiv. }
  intros other H.
  destruct (date_to_time_0utc_day other) as [-> _].
  rewrite Heq in *. unfold EE.ms_per_day in *.
  now rewrite (Huniq other (date / 86400000)%Z H).
Qed.

Lemma date_to_time_0utc_midnight_witness :
  _date_to_time_0utc overpass_20150805 = day_20150805
  /\ _date_to_time_0utc (day_20150805 + 86399999) = day_20150805
  /\ _date_to_time_0utc (-1) = (-86400000)%Z.
Proof.
  split; [reflexivity|]. split; [|reflexivity].
  apply (proj2 (proj2 (proj2 (proj2
           (date_to_time_0utc_midnight overpass_20150805))))).
  split; [discriminate | reflexivity].
Defined.

(** ** [_c_to_k] *)

Lemma copy_two_props (src dst : EE.Image) k :
  k = "system:index" \/ k = "system:time_start" ->
  EE.get k (EE.copyProperties src ["system:index"; "system:time_start"] dst)
  = match EE.get k src with Some v => Some v | None => EE.get k dst end.
Proof.
  unfold EE.copyProperties, EE.get, EE.set. cbn [fold_left].
  intros [-> | ->];
    destruct (EE.props src !! "system:index") as [i|] eqn:Ei;
    destruct (EE.props src !! "system:time_start") as [t|] eqn:Et;
    cbn [EE.props]; rewrite ?Ei, ?Et;
    cbn [EE.props];
    rewrite ?lookup_insert_eq, ?lookup_insert_ne by discriminate;
    rewrite ?lookup_insert_eq; reflexivity.
Qed.

Lemma c_to_k_time_start image :
  EE.time_start (_c_to_k image) = EE.time_start image.
Proof.
  unfold EE.time_start, _c_to_k.
  rewrite copy_two_props by now right.
  unfold EE.get at 2. cbn [EE.add EE.props]. rewrite lookup_empty.
  now destruct (EE.get "system:time_start" image).
Qed.

(** X2. [_c_to_k] adds 273.15 to every pixel that is not masked and
    leaves a masked pixel masked; the image keeps its system:index and
    system:time_start, so converting a collection and filtering it by
    date can be done in either order. *)
Theorem c_to_k_converts (image : EE.Image) :
  (forall c, EE.pix (_c_to_k image) c
             = (fun celsius => celsius + 273.15) <$> EE.pix image c)
  /\ EE.get "system:index" (_c_to_k image) = EE.get "system:index" image
  /\ EE.get "system:time_start" (_c_to_k image)
     = EE.get "system:time_start" image
  /\ EE.band (_c_to_k image) = EE.band image
  /\ (forall start stop coll,
        EE.filterDate start stop (map _c_to_k coll)
        = map _c_to_k (EE.filterDate start stop coll)).
Proof.
  assert (forall k,
            k = "system:index" \/ k = "system:time_start" ->
            EE.get k (_c_to_k image) = EE.get k image) as Hkeep.
  { intros k Hk. unfold _c_to_k. rewrite copy_two_props by exact Hk.
    unfold EE.get at 2. cbn [EE.add EE.props]. rewrite lookup_empty.
    now destruct (EE.get k image). }
  assert (forall c, EE.pix (_c_to_k image) c
                    = (fun celsius => celsius + 273.15) <$> EE.pix image c
          /\ EE.band (_c_to_k image) = EE.band image) as Hpix.
  { intros c. unfold _c_to_k, EE.copyProperties. cbn [fold_left].
    destruct (EE.get "system:index" image),
             (EE.get "system:time_start" image); split; reflexivity. }
  split; [intros c; apply Hpix|].
  split; [apply Hkeep; now left|].
  split; [apply Hkeep; now right|].
  split; [apply (Hpix (0, 0)%Z)|].
  intros start stop coll. unfold EE.filterDate.
  induction coll as [|i coll IH]; [reflexivity|].
  cbn [map List.filter]. rewrite c_to_k_time_start, IH.
  now destruct (match EE.time_start i with
                | Some t => (start <=? t)%Z && (t <? stop)%Z
                | None => false
                end).
Qed.

(** ** Keywords and numbers *)

Lemma ascii_case c :
  c = Py.upper_ascii c \/ c = Py.lower_ascii (Py.upper_ascii c).
Proof.
  destruct c as [[] [] [] [] [] [] [] []];
    first [left; reflexivity | right; reflexivity].
Qed.

Lemma path_initial c :
  Py.lower_ascii c = "p"%char \/ Py.lower_ascii c = "u"%char ->
  keyword_initial (Py.upper_ascii c) = true.
Proof.
  destruct c as [[] [] [] [] [] [] [] []]; cbv; intros [H|H];
    first [reflexivity | discriminate H].
Qed.

Lemma ned_not_number s : Py.upper s = "NED" -> _is_number (Str s) = false.
Proof.
  destruct s as [|c1 [|c2 [|c3 [|c4 r]]]]; try discriminate.
  cbn. intros H. injection H as H1 H2 H3.
  destruct (ascii_case c1) as [E1|E1], (ascii_case c2) as [E2|E2],
           (ascii_case c3) as [E3|E3];
    rewrite H1 in E1; rewrite H2 in E2; rewrite H3 in E3;
    subst c1 c2 c3; reflexivity.
Qed.

Lemma prefixed_not_number s p c :
  Py.startswith (Py.lower s) (String c p) = true ->
  c = "p"%char \/ c = "u"%char ->
  _is_number (Str s) = false.
Proof.
  unfold Py.startswith. destruct s as [|c0 r]; [discriminate|].
  cbn [Py.lower Py.map_string String.prefix].
  destruct (ascii_dec c (Py.lower_ascii c0)) as [->|]; [|discriminate].
  intros _ Hc. cbn. apply float_ok_initial, path_initial. exact Hc.
Qed.

(** X3. No keyword of the four source parameters, in any letter case,
    and no asset path starting with projects/ or users/, is taken for a
    number by [_is_number]: the numeric branch and the keyword branches
    of the resolvers never compete. *)
Theorem keywords_are_not_numbers (s : string) :
  Py.upper s ∈ ["SCENE"; "MONTH"; "DAYMET_MEDIAN_V0"; "DAYMET_MEDIAN_V1";
                "ASSET"; "GTOPO"; "NED"; "SRTM"; "CIMIS"; "DAYMET";
                "GRIDMET"; "TOPOWX"; "CIMIS_MEDIAN_V1"; "GRIDMET_MEDIAN_V1";
                "TOPOWX_MEDIAN_V0"]
  \/ Py.startswith (Py.lower s) "projects/" = true
  \/ Py.startswith (Py.lower s) "users/" = true ->
  _is_number (Str s) = false.
Proof.
  intros [Hkey|[Hp|Hu]].
  - repeat (apply elem_of_cons in Hkey as [Hkey|Hkey];
            [first [ now apply ned_not_number
                   | now apply (keyword_not_number s _ _ Hkey) ]|]).
    inversion Hkey.
  - apply (prefixed_not_number s _ _ Hp). now left.
  - apply (prefixed_not_number s _ _ Hu). now right.
Qed.

Lemma keywords_are_not_numbers_witness :
  _is_number (Str "scene") = false
  /\ _is_number (Str "Ned") = false
  /\ _is_number (Str "Users/someone/dem") = false.
Proof.
  split; [|split]; apply keywords_are_not_numbers.
  - left. refine (bool_decide_unpack _ _). vm_compute. exact I.
  - left. refine (bool_decide_unpack _ _). vm_compute. exact I.
  - right. right. reflexivity.
Defined.

(** ** [_elev] *)

Lemma elev_band ee (self : Image.Fields) img :
  Image._elev ee self = Ok (Some img) -> EE.band img = "elev".
Proof.
  unfold Image._elev.
  match goal with
  | |- context [Py.bind ?X _] => destruct X as [[j|]|e]
  end; cbn; intros H; try discriminate.
  now injection H as <-.
Qed.

Lemma elev_keyword ee (self : Image.Fields) s id :
  Image._elev_source self = Str s ->
  (Py.upper s, id) ∈ [("ASSET", "projects/usgs-ssebop/srtm_1km");
                      ("GTOPO", "USGS/GTOPO30"); ("NED", "USGS/NED");
                      ("SRTM", "CGIAR/SRTM90_V4")] ->
  Image._elev ee self = Ok (EE.rename "elev" <$> EE.ImageAsset ee id).
Proof.
  intros Hsrc Hin. unfold Image._elev. rewrite Hsrc.
  repeat (apply elem_of_cons in Hin as [Hin|Hin];
          [injection Hin as Hup ->;
           first [ rewrite (ned_not_number s Hup)
                 | rewrite (keyword_not_number s _ _ Hup eq_refl) ];
           cbn [py_upper Py.bind]; rewrite Hup; reflexivity|]).
  inversion Hin.
Qed.

Lemma elev_path ee (self : Image.Fields) s :
  Image._elev_source self = Str s ->
  Py.upper s ∉ ["ASSET"; "GTOPO"; "NED"; "SRTM"] ->
  Py.startswith (Py.lower s) "projects/" = true
  \/ Py.startswith (Py.lower s) "users/" = true ->
  Image._elev ee self = Ok (EE.rename "elev" <$> EE.ImageAsset ee s).
Proof.
  intros Hsrc Hkey Hpre. unfold Image._elev. rewrite Hsrc.
  assert (_is_number (Str s) = false) as ->.
  { destruct Hpre as [H|H];
      [apply (prefixed_not_number s _ _ H); now left
      |apply (prefixed_not_number s _ _ H); now right]. }
  cbn [py_upper py_lower Py.bind].
  rewrite !bool_decide_eq_false_2
    by (intros E; apply Hkey; rewrite E; repeat constructor).
  assert (Py.startswith (Py.lower s) "projects/"
          || Py.startswith (Py.lower s) "users/" = true) as ->
    by (destruct Hpre as [-> | ->]; [reflexivity | apply orb_true_r]).
  reflexivity.
Qed.



(** ** [_tcorr] with a tmax source that has no tables *)

Lemma default_key_not_number s v :
  Image.default_value_dict !! Py.upper s = Some v ->
  _is_number (Str s) = false.
Proof.
  intros H. apply elem_of_list_to_map_2 in H.
  repeat (apply elem_of_cons in H as [H|H];
          [injection H as Hup _;
           now apply (keyword_not_number s _ _ Hup)|]).
  inversion H.
Qed.

(** X5. Tcorr by keyword needs a keyword for Tmax: when the tcorr source
    is not a number, a tmax source given as a number makes [_tcorr]
    raise AttributeError (a number has no [upper]), and one given as
    numeric text ends the process as an invalid tmax source.  A numeric
    tmax source works with a numeric tcorr source only. *)
Theorem tcorr_by_keyword_rejects_numeric_tmax ee (self : Image.Fields) :
  _is_number (Image._tcorr_source self) = false ->
  (forall q,
     Image._tmax_source self = Num q ->
     Image._tcorr ee self = Raise (AttributeError (Num q) "upper"))
  /\ (forall s,
        Image._tmax_source self = Str s ->
        _is_number (Str s) = true ->
        Image._tcorr ee self
        = Raise (SystemExit
                   (InvalidTmaxSource (Image._tcorr_source self) (Str s)))).
Proof.
  intros Hnum. split.
  - intros q Hq. unfold Image._tcorr. now rewrite Hnum, Hq.
  - intros s Hs Hnumber. apply tcorr_unrecognized_tmax; try assumption.
    destruct (Image.default_value_dict !! Py.upper s) as [v|] eqn:E;
      [|reflexivity].
    rewrite (default_key_not_number s v E) in Hnumber. discriminate.
Qed.

Lemma tcorr_by_keyword_rejects_numeric_tmax_witness :
  Image._tcorr example_ee (example_self (Num 20) (Str "SCENE") (Num 300))
  = Raise (AttributeError (Num 300) "upper")
  /\ Image._tcorr example_ee (example_self (Num 20) (Str "SCENE") (Str "300"))
     = Raise (SystemExit (InvalidTmaxSource (Str "SCENE") (Str "300")))
  /\ Image._tcorr example_ee (example_self (Num 20) (Num 0.95) (Num 300))
     = Ok (Some 0.95, Some 3).
Proof.
  split; [|split; [|reflexivity]].
  - exact (proj1 (tcorr_by_keyword_rejects_numeric_tmax example_ee
                    (example_self (Num 20) (Str "SCENE") (Num 300)) eq_refl)
             300 eq_refl).
  - exact (proj2 (tcorr_by_keyword_rejects_numeric_tmax example_ee
                    (example_self (Num 20) (Str "SCENE") (Str "300")) eq_refl)
             "300" eq_refl eq_refl).
Defined.

(** X6. TOPOWX, in any letter case, is a key of the default table and of
    neither collection dictionary: with a tcorr source that is not a
    number the check of the tmax source passes and [_tcorr] raises
    KeyError at the monthly dictionary, for every catalogue and before
    the tcorr keyword is looked at (so also for a keyword that is
    neither SCENE nor MONTH); [_tmax] ends the process for it. *)
Theorem topowx_has_no_tables ee date_today (self : Image.Fields) (s : string) :
  Image._tmax_source self = Str s ->
  Py.upper s = "TOPOWX" ->
  Image.default_value_dict !! Py.upper s = Some 0.978
  /\ Image.month_coll_dict !! Py.upper s = None
  /\ Image.scene_coll_dict !! Py.upper s = None
  /\ (_is_number (Image._tcorr_source self) = false ->
      Image._tcorr ee self = Raise (KeyError "TOPOWX"))
  /\ Image._tmax ee date_today self
     = Raise (SystemExit (UnsupportedTmaxSource (Str s))).
Proof.
  intros Hs Hup. rewrite Hup.
  split; [reflexivity|]. split; [reflexivity|]. split; [reflexivity|].
  split.
  - intros Hnum. unfold Image._tcorr. rewrite Hnum, Hs.
    cbn [py_upper Py.bind]. rewrite Hup. reflexivity.
  - apply tmax_unrecognized; [exact Hs | |].
    + now apply (keyword_not_number s _ _ Hup).
    + rewrite Hup. intros Hin.
      repeat (apply elem_of_cons in Hin as [Hin|Hin]; [discriminate|]).
      inversion Hin.
Qed.

Lemma topowx_has_no_tables_witness :
  Image._tcorr example_ee (example_self (Num 20) (Str "SCENE") (Str "topowx"))
  = Raise (KeyError "TOPOWX")
  /\ Image._tcorr example_ee
       (example_self (Num 20) (Str "no such keyword") (Str "TOPOWX"))
     = Raise (KeyError "TOPOWX")
  /\ Image._tmax example_ee "2026-11-04"
       (example_self (Num 20) (Num 0.95) (Str "topowx"))
     = Raise (SystemExit (UnsupportedTmaxSource (Str "topowx"))).
Proof.
  split; [|split].
  - exact (proj1 (proj2 (proj2 (proj2 (topowx_has_no_tables example_ee
             "2026-11-04"
             (example_self (Num 20) (Str "SCENE") (Str "topowx"))
             "topowx" eq_refl eq_refl)))) eq_refl).
  - exact (proj1 (proj2 (proj2 (proj2 (topowx_has_no_tables example_ee
             "2026-11-04"
             (example_self (Num 20) (Str "no such keyword") (Str "TOPOWX"))
             "TOPOWX" eq_refl eq_refl)))) eq_refl).
  - exact (proj2 (proj2 (proj2 (proj2 (topowx_has_no_tables example_ee
             "2026-11-04"
             (example_self (Num 20) (Num 0.95) (Str "topowx"))
             "topowx" eq_refl eq_refl))))).
Defined.

(** ** [_tmax] with a median keyword *)

Lemma tmax_median_keyword ee date_today (self : Image.Fields) s id version :
  Image._tmax_source self = Str s ->
  (Py.upper s, id, version)
  ∈ [("CIMIS_MEDIAN_V1", "projects/usgs-ssebop/tmax/cimis_median_v1",
      "median_v1");
     ("DAYMET_MEDIAN_V0", "projects/usgs-ssebop/tmax/daymet_median_v0",
      "median_v0");
     ("DAYMET_MEDIAN_V1", "projects/usgs-ssebop/tmax/daymet_median_v1",
      "median_v1");
     ("GRIDMET_MEDIAN_V1", "projects/usgs-ssebop/tmax/gridmet_median_v1",
      "median_v1");
     ("TOPOWX_MEDIAN_V0", "projects/usgs-ssebop/tmax/topowx_median_v0",
      "median_v0")] ->
  Image._tmax ee date_today self
  = Ok (EE.set "TMAX_SOURCE" (EE.PStr s)
          <$> Image.median_image ee self id version).
Proof.
  intros Hsrc Hin. unfold Image._tmax. rewrite Hsrc.
  repeat (apply elem_of_cons in Hin as [Hin|Hin];
          [injection Hin as Hup -> ->;
           rewrite (keyword_not_number s _ _ Hup eq_refl);
           cbn [py_upper Py.bind]; rewrite Hup; reflexivity|]).
  inversion Hin.
Qed.

Lemma median_image_doy ee (self self' : Image.Fields) id version :
  Image._doy self = Image._doy self' ->
  Image.median_image ee self id version
  = Image.median_image ee self' id version.
Proof. unfold Image.median_image, Image.doy_filter. now intros ->. Qed.

(** X7. The five median keywords of [_tmax] return the first image of
    their dataset for the day of year, tagged with the median version,
    and read no daily collection.  What a daily keyword falls back on
    when its daily collection is empty is the image of a median keyword
    (CIMIS_MEDIAN_V1 for CIMIS, DAYMET_MEDIAN_V0 and not V1 for DAYMET,
    GRIDMET_MEDIAN_V1 for GRIDMET): the two results differ by the
    TMAX_SOURCE tag only. *)
Theorem tmax_median_is_the_fallback ee date_today (self : Image.Fields) :
  (forall s id version,
     Image._tmax_source self = Str s ->
     (Py.upper s, id, version)
     ∈ [("CIMIS_MEDIAN_V1", "projects/usgs-ssebop/tmax/cimis_median_v1",
         "median_v1");
        ("DAYMET_MEDIAN_V0", "projects/usgs-ssebop/tmax/daymet_median_v0",
         "median_v0");
        ("DAYMET_MEDIAN_V1", "projects/usgs-ssebop/tmax/daymet_median_v1",
         "median_v1");
        ("GRIDMET_MEDIAN_V1", "projects/usgs-ssebop/tmax/gridmet_median_v1",
         "median_v1");
        ("TOPOWX_MEDIAN_V0", "projects/usgs-ssebop/tmax/topowx_median_v0",
         "median_v0")] ->
     Image._tmax ee date_today self
     = Ok (EE.set "TMAX_SOURCE" (EE.PStr s)
             <$> Image.median_image ee self id version))
  /\ (forall (daily : Image.Fields) s d start stop,
        Image._tmax_source self = Str s ->
        Image._tmax_source daily = Str d ->
        Image._doy daily = Image._doy self ->
        Image._start_date daily = Some start ->
        Image._end_date daily = Some stop ->
        (Py.upper d = "DAYMET" /\ Py.upper s = "DAYMET_MEDIAN_V0"
         /\ EE.filterDate start (EE.advance_day 1 stop)
              (EE.ImageCollection ee "NASA/ORNL/DAYMET_V3") = [])
        \/ (Py.upper d = "CIMIS" /\ Py.upper s = "CIMIS_MEDIAN_V1"
            /\ EE.filterDate start stop
                 (EE.ImageCollection ee
                    "projects/climate-engine/cimis/daily") = [])
        \/ (Py.upper d = "GRIDMET" /\ Py.upper s = "GRIDMET_MEDIAN_V1"
            /\ EE.filterDate start stop
                 (EE.ImageCollection ee "IDAHO_EPSCOR/GRIDMET") = []) ->
        exists median,
          Image._tmax ee date_today daily
          = Ok (EE.set "TMAX_SOURCE" (EE.PStr d) <$> median)
          /\ Image._tmax ee date_today self
             = Ok (EE.set "TMAX_SOURCE" (EE.PStr s) <$> median)).
Proof.
  split; [intros s id version; apply tmax_median_keyword|].
  intros daily s d start stop Hs Hd Hdoy Hstart Hstop Hkey.
  destruct Hkey as [(Hupd & Hups & Hempty)
                   |[(Hupd & Hups & Hempty)|(Hupd & Hups & Hempty)]].
  - exists (Image.median_image ee daily
              "projects/usgs-ssebop/tmax/daymet_median_v0" "median_v0").
    split.
    + rewrite (tmax_daymet_unfold ee date_today daily d start stop)
        by assumption.
      now rewrite Hempty.
    + rewrite (median_image_doy ee daily self) by exact Hdoy.
      apply tmax_median_keyword; [exact Hs|].
      rewrite Hups. repeat constructor.
  - exists (Image.median_image ee daily
              "projects/usgs-ssebop/tmax/cimis_median_v1" "median_v1").
    split.
    + rewrite (tmax_cimis_unfold ee date_today daily d start stop)
        by assumption.
      now rewrite Hempty.
    + rewrite (median_image_doy ee daily self) by exact Hdoy.
      apply tmax_median_keyword; [exact Hs|].
      rewrite Hups. repeat constructor.
  - exists (Image.median_image ee daily
              "projects/usgs-ssebop/tmax/gridmet_median_v1" "median_v1").
    split.
    + rewrite (tmax_gridmet_unfold ee date_today daily d start stop)
        by assumption.
      now rewrite Hempty.
    + rewrite (median_image_doy ee daily self) by exact Hdoy.
      apply tmax_median_keyword; [exact Hs|].
      rewrite Hups. repeat constructor.
Qed.

(** Without a DAYMET image for the day, DAYMET and DAYMET_MEDIAN_V0 give
    the same 301 K tagged median_v0. *)
Lemma tmax_median_is_the_fallback_witness :
  exists median,
    Image._tmax (example_catalog None) "2026-11-04"
      (example_self (Num 20) (Num 0.95) (Str "DAYMET"))
    = Ok (EE.set "TMAX_SOURCE" (EE.PStr "DAYMET") <$> median)
    /\ Image._tmax (example_catalog None) "2026-11-04"
         (example_self (Num 20) (Num 0.95) (Str "daymet_median_v0"))
       = Ok (EE.set "TMAX_SOURCE" (EE.PStr "daymet_median_v0") <$> median).
Proof.
  exact (proj2 (tmax_median_is_the_fallback (example_catalog None)
           "2026-11-04"
           (example_self (Num 20) (Num 0.95) (Str "daymet_median_v0")))
           (example_self (Num 20) (Num 0.95) (Str "DAYMET"))
           "daymet_median_v0" "DAYMET"
           day_20150805 (EE.advance_day 1 day_20150805)
           eq_refl eq_refl eq_refl eq_refl eq_refl
           (or_introl (conj eq_refl (conj eq_refl eq_refl)))).
Defined.

(** ** The ETf formula at its reference temperatures *)

Lemma clampQ_monotone lo hi x y :
  lo <= hi -> x <= y -> EE.clampQ lo hi x <= EE.clampQ lo hi y.
Proof.
  intros Hlh Hxy. unfold EE.clampQ.
  destruct (EE.Qltb x lo) eqn:Ex, (EE.Qltb hi x) eqn:Ehx,
           (EE.Qltb y lo) eqn:Ey, (EE.Qltb hi y) eqn:Ehy;
    rewrite ?Qltb_lt, ?Qltb_ge in *; lra.
Qed.

Lemma etf_expression_decreasing tcorr tmax dt lst1 lst2 :
  0 < dt -> lst1 <= lst2 ->
  Image.etf_expression tcorr lst2 tmax dt
  <= Image.etf_expression tcorr lst1 tmax dt.
Proof.
  intros Hdt Hl. unfold Image.etf_expression, Qdiv.
  apply Qmult_le_compat_r; [lra|].
  apply Qlt_le_weak, Qinv_lt_0_compat, Hdt.
Qed.

Lemma etf_pixel_value tcorr thr lst tmax dt v :
  Image.etf_pixel tcorr thr (Some lst) (Some tmax) (Some dt) = Some v ->
  v = EE.clampQ 0 1.05 (Image.etf_expression tcorr lst tmax dt).
Proof.
  rewrite etf_pixel_cases.
  destruct (Qle_bool 1.3 _); [discriminate|].
  destruct (EE.Qltb thr _); [discriminate|].
  now intros [= <-].
Qed.

(** X8. The ETf formula at the two reference temperatures of SSEBop,
    for a dT that is not 0: a pixel as cold as tmax * tcorr has ETf 1,
    a pixel hotter than that by dT has ETf 0 (each where the Tdiff mask
    keeps the pixel).  For a positive dT a pixel that is hotter still
    stays at 0, and of two pixels that differ in lst only, both kept,
    the hotter one never has the larger ETf. *)
Theorem etf_reference_temperatures (tcorr tdiff_threshold tmax dt : Q) :
  ~ dt == 0 ->
  (tmax - tmax * tcorr <= tdiff_threshold ->
   exists v,
     Image.etf_pixel tcorr tdiff_threshold
       (Some (tmax * tcorr)) (Some tmax) (Some dt) = Some v
     /\ v == 1)
  /\ (tmax - (tmax * tcorr + dt) <= tdiff_threshold ->
      exists v,
        Image.etf_pixel tcorr tdiff_threshold
          (Some (tmax * tcorr + dt)) (Some tmax) (Some dt) = Some v
        /\ v == 0)
  /\ (0 < dt ->
      forall lst v,
        tmax * tcorr + dt <= lst ->
        Image.etf_pixel tcorr tdiff_threshold (Some lst) (Some tmax) (Some dt)
        = Some v ->
        v == 0)
  /\ (0 < dt ->
      forall lst1 lst2 v1 v2,
        lst1 <= lst2 ->
        Image.etf_pixel tcorr tdiff_threshold (Some lst1) (Some tmax)
          (Some dt) = Some v1 ->
        Image.etf_pixel tcorr tdiff_threshold (Some lst2) (Some tmax)
          (Some dt) = Some v2 ->
        v2 <= v1).
Proof.
  intros Hdt.
  assert (Image.etf_expression tcorr (tmax * tcorr) tmax dt == 1) as Hcold
    by (unfold Image.etf_expression; field; exact Hdt).
  assert (Image.etf_expression tcorr (tmax * tcorr + dt) tmax dt == 0)
    as Hhot by (unfold Image.etf_expression; field; exact Hdt).
  split; [|split; [|split]].
  - intros Hmask. eexists. split.
    + rewrite etf_pixel_cases.
      replace (Qle_bool 1.3 _) with false
        by (symmetry; apply Qle_bool_gt; rewrite Hcold; reflexivity).
      replace (EE.Qltb tdiff_threshold _) with false
        by (symmetry; apply Qltb_ge; exact Hmask).
      reflexivity.
    + rewrite clampQ_inside; [exact Hcold | |]; rewrite Hcold; discriminate.
  - intros Hmask. eexists. split.
    + rewrite etf_pixel_cases.
      replace (Qle_bool 1.3 _) with false
        by (symmetry; apply Qle_bool_gt; rewrite Hhot; reflexivity).
      replace (EE.Qltb tdiff_threshold _) with false
        by (symmetry; apply Qltb_ge; exact Hmask).
      reflexivity.
    + rewrite clampQ_inside; [exact Hhot | |]; rewrite Hhot; discriminate.
  - intros Hpos lst v Hlst Hv.
    rewrite (etf_pixel_value _ _ _ _ _ _ Hv).
    pose proof (etf_expression_decreasing tcorr tmax dt _ _ Hpos Hlst) as H.
    rewrite Hhot in H. unfold EE.clampQ.
    destruct (EE.Qltb _ 0) eqn:E0; [reflexivity|].
    apply Qltb_ge in E0.
    replace (EE.Qltb 1.05 _) with false
      by (symmetry; apply Qltb_ge; lra).
    lra.
  - intros Hpos lst1 lst2 v1 v2 Hl H1 H2.
    rewrite (etf_pixel_value _ _ _ _ _ _ H1),
            (etf_pixel_value _ _ _ _ _ _ H2).
    apply clampQ_monotone; [discriminate|].
    now apply etf_expression_decreasing.
Qed.

(** With tmax 300 K, tcorr 0.98 and dT 10 K: 294 K gives 1, 304 K gives
    0, and 299 K gives no more than 296 K. *)
Lemma etf_reference_temperatures_witness :
  (exists v,
     Image.etf_pixel 0.98 15 (Some (300 * 0.98)) (Some 300) (Some 10)
     = Some v /\ v == 1)
  /\ (exists v,
        Image.etf_pixel 0.98 15 (Some (300 * 0.98 + 10)) (Some 300) (Some 10)
        = Some v /\ v == 0)
  /\ (forall v1 v2,
        Image.etf_pixel 0.98 15 (Some 296) (Some 300) (Some 10) = Some v1 ->
        Image.etf_pixel 0.98 15 (Some 299) (Some 300) (Some 10) = Some v2 ->
        v2 <= v1).
Proof.
  assert (~ 10 == 0) as Hdt by discriminate.
  split; [|split].
  - apply (proj1 (etf_reference_temperatures 0.98 15 300 10 Hdt)).
    discriminate.
  - apply (proj1 (proj2 (etf_reference_temperatures 0.98 15 300 10 Hdt))).
    discriminate.
  - intros v1 v2.
    apply (proj2 (proj2 (proj2
             (etf_reference_temperatures 0.98 15 300 10 Hdt)))
             eq_refl 296 299 v1 v2).
    discriminate.
Defined.

(** ** The image of [etf] *)

Lemma etf_pixel_range tcorr thr lst tmax dt v :
  Image.etf_pixel tcorr thr lst tmax dt = Some v -> 0 <= v <= 1.05.
Proof.
  destruct lst as [l|], tmax as [t|], dt as [d|];
    try (rewrite etf_pixel_masked by tauto; discriminate).
  intros H. rewrite (etf_pixel_value _ _ _ _ _ _ H).
  apply clampQ_bounds. discriminate.
Qed.

(** X9. Whenever [etf] evaluates to an image: its band is named "etf";
    it carries the system:index and system:time_start of the input and
    the resolved TCORR and TCORR_INDEX; every pixel is masked or lies in
    [0, 1.05]; and a pixel masked in lst, in Tmax or in dT is masked. *)
Theorem etf_image_invariants ee date_today (self : Image.t) img :
  Image.etf_fn ee date_today self = Ok (Some img) ->
  EE.band img = "etf"
  /\ (exists index time_start tcorr tcorr_index,
        Image._index (fields self) = Some index
        /\ Image._time_start (fields self) = Some time_start
        /\ Image._tcorr ee (fields self) = Ok (Some tcorr, Some tcorr_index)
        /\ EE.get "system:index" img = Some (EE.PStr index)
        /\ EE.get "system:time_start" img
           = Some (EE.PNum (inject_Z time_start))
        /\ EE.get "TCORR" img = Some (EE.PNum tcorr)
        /\ EE.get "TCORR_INDEX" img = Some (EE.PNum tcorr_index))
  /\ (forall c v, EE.pix img c = Some v -> 0 <= v <= 1.05)
  /\ (forall lst tmax dt c,
        Image.lst (fields self) = Some lst ->
        Image._tmax ee date_today (fields self) = Ok (Some tmax) ->
        Image._dt ee (fields self) = Ok (Some dt) ->
        EE.pix lst c = None \/ EE.pix tmax c = None \/ EE.pix dt c = None ->
        EE.pix img c = None).
Proof.
  intros H.
  destruct (etf_fn_pixels ee date_today self img H)
    as (l & tm & d & tc & ti & Hl & Htc & Htm & Hd & HT & HI & Hband & Hpix).
  split; [exact Hband|].
  split.
  { unfold Image.etf_fn in H. rewrite Htc, Htm, Hd, Hl in H.
    cbn in H. injection H as H.
    destruct (Image._index (fields self)) as [i|]; [|discriminate].
    destruct (Image._time_start (fields self)) as [ts|]; [|discriminate].
    cbn in H. injection H as <-.
    exists i, ts, tc, ti. repeat split; first [reflexivity | exact Htc]. }
  split.
  { intros c v Hv. rewrite Hpix in Hv. exact (etf_pixel_range _ _ _ _ _ _ Hv). }
  intros lst tmax dt c Hlst Htmax Hdt Hmasked.
  rewrite Hl in Hlst. injection Hlst as ->.
  rewrite Htm in Htmax. injection Htmax as ->.
  rewrite Hd in Hdt. injection Hdt as ->.
  rewrite Hpix. now apply etf_pixel_masked.
Qed.

(** The example scene by keywords: Tcorr 0.99 of its scene row, the
    DAYMET image of 300 K, dT 30 clamped to 25; the ratio 1.08 is
    clamped to 1.05. *)
Lemma etf_image_invariants_witness :
  exists img,
    Image.etf_fn example_ee "2026-11-04"
      (example_object (Str "daymet_median_v1") (Str "SCENE") (Str "DAYMET"))
    = Ok (Some img)
    /\ EE.band img = "etf"
    /\ (forall c v, EE.pix img c = Some v -> 0 <= v <= 1.05)
    /\ EE.pix img (0, 0)%Z
       = Some (EE.clampQ 0 1.05
                 (Image.etf_expression 0.99 295 (26.85 + 273.15)
                    (EE.clampQ 6 25 30))).
Proof.
  eexists. split; [reflexivity|].
  split.
  { refine (proj1 (etf_image_invariants example_ee "2026-11-04"
                     (example_object (Str "daymet_median_v1") (Str "SCENE")
                                     (Str "DAYMET")) _ eq_refl)). }
  split; [|reflexivity].
  refine (proj1 (proj2 (proj2 (etf_image_invariants example_ee "2026-11-04"
                   (example_object (Str "daymet_median_v1") (Str "SCENE")
                                   (Str "DAYMET")) _ eq_refl)))).
Defined.



(** X11. [etf] reads neither the elevation source nor the ELR flag: two
    instances that differ in these two arguments only have the same
    [etf], an elevation keyword that [_elev] rejects included. *)
Theorem etf_ignores_elevation ee date_today (image : option Image.Prepped)
    (cfg : Image.Config) (elev_source : Py.value) (elr_flag : bool) :
  Image.etf_fn ee date_today
    (Image.__init__ image
       (Image.mkConfig (Image.dt_source cfg) elev_source
          (Image.tcorr_source cfg) (Image.tmax_source cfg) elr_flag
          (Image.tdiff_threshold cfg)))
  = Image.etf_fn ee date_today (Image.__init__ image cfg)
  /\ (Image.etf ee date_today
        (Image.__init__ image
           (Image.mkConfig (Image.dt_source cfg) elev_source
              (Image.tcorr_source cfg) (Image.tmax_source cfg) elr_flag
              (Image.tdiff_threshold cfg)))).1
     = (Image.etf ee date_today (Image.__init__ image cfg)).1.
Proof.
  assert (Image.etf_fn ee date_today
            (Image.__init__ image
               (Image.mkConfig (Image.dt_source cfg) elev_source
                  (Image.tcorr_source cfg) (Image.tmax_source cfg) elr_flag
                  (Image.tdiff_threshold cfg)))
          = Image.etf_fn ee date_today (Image.__init__ image cfg)) as H
    by (destruct cfg; reflexivity).
  split; [exact H|].
  unfold Image.etf. rewrite !(lazy_property_miss "etf") by reflexivity.
  rewrite H. now destruct (Image.etf_fn ee date_today _).
Qed.

(** ** A read of a lazy property that fails *)

(** X12. [lazy_property] stores nothing when the method body raises: the
    exception is passed on, the instance keeps its fields and its
    attributes, and the next read calls the body again (storing its
    value if it returns then).  Only a value is remembered, never a
    failure. *)
Theorem lazy_property_forgets_failures {F V : Type} (name : string)
    (fn : Object F V -> Py.res V) (self : Object F V) (e : Py.exn) :
  dict self !! ("_lazy_" +:+ name) = None ->
  fn self = Raise e ->
  let after := (lazy_property name fn self).2 in
  (lazy_property name fn self).1 = Raise e
  /\ fields after = fields self
  /\ dict after = dict self
  /\ calls after = (name, false) :: calls self
  /\ forall fn' : Object F V -> Py.res V,
       lazy_property name fn' after
       = match fn' after with
         | Ok v =>
             (Ok v, setattr (called name true after) ("_lazy_" +:+ name) v)
         | Raise e' => (Raise e', called name false after)
         end.
Proof.
  intros Hnone Hfn after. subst after.
  rewrite (lazy_property_miss name fn self Hnone), Hfn. cbn [fst snd].
  repeat split. intros fn'.
  now apply lazy_property_miss.
Qed.

(** The instance with the dT source "GRIDMET": both reads of [etf] end
    the process, and the body ran twice. *)
Lemma lazy_property_forgets_failures_witness :
  let self := example_object (Str "GRIDMET") (Str "SCENE") (Str "DAYMET") in
  let first_read := Image.etf example_ee "2026-11-04" self in
  let second_read := Image.etf example_ee "2026-11-04" first_read.2 in
  first_read.1 = Raise (SystemExit (InvalidDt (Str "GRIDMET")))
  /\ second_read.1 = Raise (SystemExit (InvalidDt (Str "GRIDMET")))
  /\ calls second_read.2 = [("etf", false); ("etf", false)].
Proof.
  intros self first_read second_read.
  destruct (lazy_property_forgets_failures "etf"
              (Image.etf_fn example_ee "2026-11-04") self
              (SystemExit (InvalidDt (Str "GRIDMET"))) eq_refl eq_refl)
    as (Hfirst & _ & _ & _ & Hnext).
  split; [exact Hfirst|].
  split; reflexivity.
Defined.

(** ** [from_landsat_c1_toa] *)

(** NDVI and LST of a scene whose bands carry the generic names. *)
Lemma prepared_scene ee blue green red nir swir1 swir2 thermal bqa props fp
    k1v k2v :
  let prep :=
    EE.mkScene
      (list_to_map
         (zip Image.output_bands
            [blue; green; red; nir; swir1; swir2; thermal; bqa]))
      (<["k2_constant" := EE.PNum k2v]>
         (<["k1_constant" := EE.PNum k1v]> props)) fp in
  Image._ndvi (Some prep)
  = Some (EE.mkImage "ndvi"
            (fun c => EE.normalizedDifference (nir c) (red c)) ∅)
  /\ Image._lst ee (Some prep)
     = Some (EE.mkImage "lst"
               (fun c => Image.lst_pixel ee k1v k2v (thermal c)
                           (Image.emissivity_pixel
                              (EE.normalizedDifference (nir c) (red c))))
               ∅).
Proof.
  intros prep. split; [reflexivity|].
  unfold Image._lst. cbn [mbind option_bind].
  assert (Image.scene_number "k1_constant" prep = Some k1v) as ->.
  { unfold Image.scene_number. subst prep. cbn [EE.scene_props].
    rewrite lookup_insert_ne by discriminate. now rewrite lookup_insert_eq. }
  assert (Image.scene_number "k2_constant" prep = Some k2v) as ->.
  { unfold Image.scene_number. subst prep. cbn [EE.scene_props].
    now rewrite lookup_insert_eq. }
  reflexivity.
Qed.

Lemma from_landsat_unfold ee (toa : EE.Scene) cfg spacecraft names k1_name
    k2_name rasters k1v k2v :
  Image.scene_string "SPACECRAFT_ID" toa = Some spacecraft ->
  Image.input_bands !! spacecraft = Some names ->
  Image.k1 !! spacecraft = Some k1_name ->
  Image.k2 !! spacecraft = Some k2_name ->
  mapM (fun n => EE.bands toa !! n) names = Some rasters ->
  Image.scene_number k1_name toa = Some k1v ->
  Image.scene_number k2_name toa = Some k2v ->
  Image.from_landsat_c1_toa ee (Some toa) cfg
  = let prep :=
      Some (EE.mkScene (list_to_map (zip Image.output_bands rasters))
              (<["k2_constant" := EE.PNum k2v]>
                 (<["k1_constant" := EE.PNum k1v]> (EE.scene_props toa)))
              (EE.footprint toa)) in
    Image.__init__
      (lst ← Image._lst ee prep;
       ndvi ← Image._ndvi prep;
       Some (Image.mkPrepped (EE.pix lst) (EE.pix ndvi)
               (Image.scene_string "system:index" toa)
               (EE.scene_time_start toa)))
      cfg.
Proof.
  intros Hid Hnames Hk1n Hk2n Hr Hk1 Hk2.
  unfold Image.from_landsat_c1_toa, Image.select_bands.
  cbn [mbind option_bind].
  rewrite Hid. cbn [mbind option_bind].
  rewrite Hnames. cbn [mbind option_bind].
  rewrite Hr. cbn [mbind option_bind].
  rewrite Hk1n, Hk2n. cbn [mbind option_bind].
  rewrite Hk1, Hk2. reflexivity.
Qed.

Lemma eight_bands (toa : EE.Scene) n0 n1 n2 n3 n4 n5 n6 n7 :
  Forall (fun n => is_Some (EE.bands toa !! n))
    [n0; n1; n2; n3; n4; n5; n6; n7] ->
  exists r0 r1 r2 r3 r4 r5 r6 r7,
    mapM (fun n => EE.bands toa !! n) [n0; n1; n2; n3; n4; n5; n6; n7]
    = Some [r0; r1; r2; r3; r4; r5; r6; r7]
    /\ EE.bands toa !! n2 = Some r2
    /\ EE.bands toa !! n3 = Some r3
    /\ EE.bands toa !! n6 = Some r6.
Proof.
  intros H.
  repeat match goal with
         | H : Forall _ (_ :: _) |- _ =>
             let x := fresh "r" in
             let E := fresh "E" in
             apply Forall_cons in H as [[x E] H]
         end.
  exists r, r0, r1, r2, r3, r4, r5, r6.
  split; [|auto].
  apply mapM_Some. repeat constructor; assumption.
Qed.

Ltac replace_by H f :=
  match goal with
  | |- context [f ?p] =>
      match type of H with
      | _ = ?v => replace (f p) with v by (symmetry; exact H)
      end
  end;
  cbn [mbind option_bind].

(** X13. [from_landsat_c1_toa] reads the bands by spacecraft: red, near
    infrared and thermal are B3, B4 and B6 for Landsat 5, B3, B4 and
    B6_VCID_1 for Landsat 7, B4, B5 and B10 for Landsat 8, with the
    calibration constants K1 and K2 of that thermal band.  For a scene
    that has the eight bands of its spacecraft, the NDVI of the instance
    is the normalized difference of near infrared and red, its LST is
    computed from the thermal band with these constants and the
    emissivity of that NDVI, and the index, the time and the keyword
    arguments are those given. *)
Theorem landsat_bands_by_spacecraft ee (toa : EE.Scene) (cfg : Image.Config)
    spacecraft red nir thermal k1_name k2_name names
    (red_band nir_band thermal_band : EE.Raster) k1_constant k2_constant :
  Image.scene_string "SPACECRAFT_ID" toa = Some spacecraft ->
  (spacecraft, (red, nir, thermal), (k1_name, k2_name))
  ∈ [("LANDSAT_5", ("B3", "B4", "B6"),
      ("K1_CONSTANT_BAND_6", "K2_CONSTANT_BAND_6"));
     ("LANDSAT_7", ("B3", "B4", "B6_VCID_1"),
      ("K1_CONSTANT_BAND_6_VCID_1", "K2_CONSTANT_BAND_6_VCID_1"));
     ("LANDSAT_8", ("B4", "B5", "B10"),
      ("K1_CONSTANT_BAND_10", "K2_CONSTANT_BAND_10"))] ->
  Image.input_bands !! spacecraft = Some names ->
  Forall (fun n => is_Some (EE.bands toa !! n)) names ->
  EE.bands toa !! red = Some red_band ->
  EE.bands toa !! nir = Some nir_band ->
  EE.bands toa !! thermal = Some thermal_band ->
  Image.scene_number k1_name toa = Some k1_constant ->
  Image.scene_number k2_name toa = Some k2_constant ->
  let self := fields (Image.from_landsat_c1_toa ee (Some toa) cfg) in
  exists ndvi lst,
    Image.ndvi self = Some ndvi
    /\ Image.lst self = Some lst
    /\ (forall c,
          EE.pix ndvi c = EE.normalizedDifference (nir_band c) (red_band c)
          /\ EE.pix lst c
             = Image.lst_pixel ee k1_constant k2_constant (thermal_band c)
                 (Image.emissivity_pixel (EE.pix ndvi c)))
    /\ Image._index self = Image.scene_string "system:index" toa
    /\ Image._time_start self = EE.scene_time_start toa
    /\ (Image._dt_source self, Image._tcorr_source self,
        Image._tmax_source self, Image._tdiff_threshold self)
       = (Image.dt_source cfg, Image.tcorr_source cfg,
          Image.tmax_source cfg, Image.tdiff_threshold cfg).
Proof.
  intros Hid Hin Hnames Hall Hred Hnir Hthermal Hk1 Hk2 self. subst self.
  assert (forall r0 r1 r2 r3 r4 r5 r6 r7,
            r2 = red_band -> r3 = nir_band -> r6 = thermal_band ->
            mapM (fun n => EE.bands toa !! n) names
            = Some [r0; r1; r2; r3; r4; r5; r6; r7] ->
            Image.k1 !! spacecraft = Some k1_name ->
            Image.k2 !! spacecraft = Some k2_name ->
            exists ndvi lst,
              Image.ndvi
                (fields (Image.from_landsat_c1_toa ee (Some toa) cfg))
              = Some ndvi
              /\ Image.lst
                   (fields (Image.from_landsat_c1_toa ee (Some toa) cfg))
                 = Some lst
              /\ (forall c,
                    EE.pix ndvi c
                    = EE.normalizedDifference (nir_band c) (red_band c)
                    /\ EE.pix lst c
                       = Image.lst_pixel ee k1_constant k2_constant
                           (thermal_band c)
                           (Image.emissivity_pixel (EE.pix ndvi c)))
              /\ Image._index
                   (fields (Image.from_landsat_c1_toa ee (Some toa) cfg))
                 = Image.scene_string "system:index" toa
              /\ Image._time_start
                   (fields (Image.from_landsat_c1_toa ee (Some toa) cfg))
                 = EE.scene_time_start toa
              /\ (Image._dt_source
                    (fields (Image.from_landsat_c1_toa ee (Some toa) cfg)),
                  Image._tcorr_source
                    (fields (Image.from_landsat_c1_toa ee (Some toa) cfg)),
                  Image._tmax_source
                    (fields (Image.from_landsat_c1_toa ee (Some toa) cfg)),
                  Image._tdiff_threshold
                    (fields (Image.from_landsat_c1_toa ee (Some toa) cfg)))
                 = (Image.dt_source cfg, Image.tcorr_source cfg,
                    Image.tmax_source cfg, Image.tdiff_threshold cfg))
    as Hcase.
  { intros r0 r1 r2 r3 r4 r5 r6 r7 -> -> -> Hr Hk1n Hk2n.
    rewrite (from_landsat_unfold ee toa cfg _ _ _ _ _ _ _
               Hid Hnames Hk1n Hk2n Hr Hk1 Hk2).
    cbv zeta.
    destruct (prepared_scene ee r0 r1 red_band nir_band r4 r5 thermal_band
                r7 (EE.scene_props toa) (EE.footprint toa)
                k1_constant k2_constant) as [Hn Hl].
    replace_by Hl (Image._lst ee).
    replace_by Hn Image._ndvi.
    eexists; eexists; repeat split. }
  repeat (apply elem_of_cons in Hin as [Hin|Hin];
          [injection Hin as -> -> -> -> -> ->;
           vm_compute in Hnames; injection Hnames as <-;
           destruct (eight_bands toa _ _ _ _ _ _ _ _ Hall)
             as (r0 & r1 & r2 & r3 & r4 & r5 & r6 & r7 & Hr & E2 & E3 & E6);
           apply (Hcase r0 r1 r2 r3 r4 r5 r6 r7);
           [congruence | congruence | congruence | exact Hr
           | reflexivity | reflexivity]|]).
  inversion Hin.
Qed.

Lemma landsat_bands_by_spacecraft_witness :
  let self :=
    fields (Image.from_landsat_c1_toa example_ee (Some example_toa)
              Image.defaults) in
  exists ndvi lst,
    Image.ndvi self = Some ndvi
    /\ Image.lst self = Some lst
    /\ (forall c,
          EE.pix ndvi c = EE.normalizedDifference (Some 0.3) (Some 0.1)
          /\ EE.pix lst c
             = Image.lst_pixel example_ee 774.8853 1321.0789 (Some 300)
                 (Image.emissivity_pixel (EE.pix ndvi c)))
    /\ Image._index self = Some "LC08_043033_20150805"
    /\ Image._time_start self = Some overpass_20150805
    /\ (Image._dt_source self, Image._tcorr_source self,
        Image._tmax_source self, Image._tdiff_threshold self)
       = (Image.dt_source Image.defaults, Image.tcorr_source Image.defaults,
          Image.tmax_source Image.defaults,
          Image.tdiff_threshold Image.defaults).
Proof.
  refine (landsat_bands_by_spacecraft example_ee example_toa Image.defaults
            "LANDSAT_8" "B4" "B5" "B10"
            "K1_CONSTANT_BAND_10" "K2_CONSTANT_BAND_10"
            ["B2"; "B3"; "B4"; "B5"; "B6"; "B7"; "B10"; "BQA"]
            (fun _ => Some 0.1) (fun _ => Some 0.3) (fun _ => Some 300)
            774.8853 1321.0789
            eq_refl _ eq_refl _ eq_refl eq_refl eq_refl eq_refl eq_refl).
  - do 2 (apply elem_of_cons; right). apply elem_of_cons. now left.
  - repeat constructor; vm_compute; eexists; reflexivity.
Defined.

(** X14. A scene whose SPACECRAFT_ID is missing or is not one of
    LANDSAT_5, LANDSAT_7 and LANDSAT_8 is not rejected when the instance
    is built: the lookups by spacecraft are left to Earth Engine, so the
    instance has no LST, NDVI, index or scene id that can be evaluated,
    and whatever reading [etf] returns cannot be evaluated either. *)
Theorem unsupported_spacecraft_is_deferred ee date_today (toa : EE.Scene)
    (cfg : Image.Config) :
  (forall id,
     Image.scene_string "SPACECRAFT_ID" toa = Some id ->
     id ∉ ["LANDSAT_5"; "LANDSAT_7"; "LANDSAT_8"]) ->
  let obj := Image.from_landsat_c1_toa ee (Some toa) cfg in
  Image.lst (fields obj) = None
  /\ Image.ndvi (fields obj) = None
  /\ Image._index (fields obj) = None
  /\ Image._scene_id (fields obj) = None
  /\ Image._date (fields obj) = None
  /\ forall image,
       (Image.etf ee date_today obj).1 = Ok image -> image = None.
Proof.
  intros Hid obj.
  assert (obj = Image.__init__ None cfg) as Hobj.
  { subst obj. unfold Image.from_landsat_c1_toa. cbn [mbind option_bind].
    destruct (Image.scene_string "SPACECRAFT_ID" toa) as [id|] eqn:E;
      [|reflexivity].
    cbn [mbind option_bind].
    assert (Image.input_bands !! id = None) as ->; [|reflexivity].
    apply not_elem_of_list_to_map_1. exact (Hid id eq_refl). }
  rewrite Hobj. repeat split.
  intros image. unfold Image.etf.
  rewrite lazy_property_miss by reflexivity.
  unfold Image.etf_fn. cbn [fields Image.__init__ Image.lst].
  destruct (Image._tcorr ee _) as [tc|e]; [|discriminate].
  destruct (Image._tmax ee date_today _) as [tm|e]; [|discriminate].
  destruct (Image._dt ee _) as [d|e]; [|discriminate].
  cbn. congruence.
Qed.

(** A Landsat 4 scene under the default sources: the instance is built
    and [etf] returns, with nothing to evaluate. *)
Lemma unsupported_spacecraft_is_deferred_witness :
  let toa :=
    EE.mkScene (EE.bands example_toa)
      (<["SPACECRAFT_ID" := EE.PStr "LANDSAT_4"]>
         (EE.scene_props example_toa))
      (EE.footprint example_toa) in
  let obj :=
    Image.from_landsat_c1_toa example_landsat_ee (Some toa) Image.defaults in
  Image.lst (fields obj) = None
  /\ (Image.etf example_landsat_ee "2026-11-04" obj).1 = Ok None.
Proof.
  intros toa obj.
  assert (forall id,
            Image.scene_string "SPACECRAFT_ID" toa = Some id ->
            id ∉ ["LANDSAT_5"; "LANDSAT_7"; "LANDSAT_8"]) as Hid.
  { intros id E. vm_compute in E. injection E as <-.
    refine (bool_decide_unpack _ _). vm_compute. exact I. }
  destruct (unsupported_spacecraft_is_deferred example_landsat_ee
              "2026-11-04" toa Image.defaults Hid)
    as (Hlst & _ & _ & _ & _ & Hetf).
  split; [exact Hlst|].
  destruct (Image.etf example_landsat_ee "2026-11-04" obj).1 as [image|e] eqn:E.
  - now rewrite (Hetf image E).
  - vm_compute in E. discriminate.
Defined.

(** ** [collection] on supported collections *)

Lemma mapM_app_option {A B} (f : A -> option B) (l1 l2 : list A) :
  mapM f (l1 ++ l2)%list
  = (x ← mapM f l1; y ← mapM f l2; Some (x ++ y)%list).
Proof.
  induction l1 as [|a l1 IH]; cbn [app mapM].
  - cbn. now destruct (mapM f l2).
  - cbn [mbind mret fmap]. rewrite IH.
    destruct (f a); cbn; [|reflexivity].
    destruct (mapM f l1); cbn; [|reflexivity].
    destruct (mapM f l2); cbn; reflexivity.
Qed.

Lemma map_scenes_etf ee date_today coll :
  map_scenes (compute ee date_today "etf") coll
  = Ok (mapM (fun s => match compute ee date_today "etf" (Some s) with
                       | Ok image => image
                       | Raise _ => None
                       end) coll).
Proof.
  unfold map_scenes.
  destruct (compute_returns ee date_today None) as [h ->]. reflexivity.
Qed.

Lemma build_supported ee date_today start_date end_date geometry collections
    variable_coll :
  Forall (fun id => id ∈ landsat_c1_toa_collections) collections ->
  build_variable_coll ee date_today "etf" start_date end_date geometry
    collections variable_coll
  = Ok (a ← variable_coll;
        b ← mapM (fun s => match compute ee date_today "etf" (Some s) with
                           | Ok image => image
                           | Raise _ => None
                           end)
              (flat_map
                 (fun id =>
                    EE.filterBounds geometry
                      (EE.scene_filterDate start_date end_date
                         (EE.SceneCollection ee id))) collections);
        Some (a ++ b)%list).
Proof.
  intros H. revert variable_coll.
  induction H as [|id l Hid Hl IH]; intros variable_coll.
  - cbn. destruct variable_coll; cbn; [|reflexivity].
    now rewrite app_nil_r.
  - cbn [build_variable_coll flat_map]. unfold Py.str_in.
    rewrite bool_decide_eq_true_2 by exact Hid.
    rewrite map_scenes_etf. cbn [Py.bind]. rewrite IH.
    rewrite mapM_app_option. unfold EE.merge.
    destruct variable_coll; cbn; [|reflexivity].
    destruct (mapM _ (EE.filterBounds _ _)); cbn; [|reflexivity].
    destruct (mapM _ (flat_map _ _)); cbn; [|reflexivity].
    now rewrite app_assoc.
Qed.


